(** * nxs-go-telegram: debounced update queue and session state machine

    A shallow embedding of the package [tg] (queue.go, redis.go,
    updatechain.go, session.go, telegram.go) together with the properties
    of the queue, the update chain, the session store and the state
    switch that the package's description relies on.

    Conventions.
    - A Go [int64]/[int] is a [Z]; a [time.Time] is the instant as a [Z]
      (its JSON text in the [meta] hash is kept as the instant itself), a
      [time.Duration] is a [Z] too.
    - A Go [error] result is an [option error] ([None] is [nil]); a pair
      [(v, err)] is a pair, or a sum when the value is dropped on error.
    - Redis is a record of its three key spaces, threaded through every
      call; [online] says whether the commands of the client succeed.
    - Handlers of the bot description are functions on the world (the
      store and the messages handed to the transport).
    - A pointer is an [option], [None] being [nil].  A function that reads
      through a pointer returns an [option]: [None] is the run-time panic
      of a [nil] dereference, after which the call does not return. *)

From Stdlib Require Import ZArith String List Lia.
From Stdlib Require Import Ascii.
From stdpp Require Import base decidable option list gmap strings fin_maps.

Open Scope Z_scope.

(** ** Errors *)

Inductive error : Type :=
| ErrCallbackDataFormat
| ErrDescriptionStateMissing
| ErrUpdatesChanClosed
| ErrUpdateChainZeroLen
| ErrUpdateWrongType
| ErrSessionNotExist
| Errorf (msg : string)        (* fmt.Errorf(msg) *)
| ErrRedis                     (* a failed command of the Redis client *)
| rds_Nil                      (* the reply rds.Nil of the Redis client *)
| ErrJSON                      (* a failed json.Unmarshal *)
| ErrGob                       (* a failed gob encode or decode *)
| ErrBot (msg : string)        (* a failed request of the bot API *)
| ErrUser (msg : string).      (* an error returned by a handler *)

#[global] Instance error_eq_dec : EqDecision error.
Proof. solve_decision. Defined.

(** ** Updates (tgbotapi.Update, the fields the package reads) *)

Record tgUser := mkUser { User_ID : Z; UserName : string }.
Record tgChat := mkChat { Chat_ID : Z }.

(** tgbotapi.Message: [From] is a [*User] and [Chat] a [*Chat]. *)
Record tgMessage := mkMessage {
  MessageID : Z;
  From : option tgUser;
  Chat : option tgChat;
  Text : string
}.

(** tgbotapi.CallbackQuery: [From] is a [*User] and [Message] a [*Message],
    which is [nil] for a callback from a message sent in inline mode. *)
Record tgCallbackQuery := mkCallbackQuery {
  CQ_ID : string;
  CQ_From : option tgUser;
  CQ_Message : option tgMessage;
  Data : string
}.

Record Update := mkUpdate {
  UpdateID : Z;
  Message : option tgMessage;
  CallbackQuery : option tgCallbackQuery
}.

Inductive UpdateType : Type :=
| UpdateTypeNone
| UpdateTypeUnknown
| UpdateTypeMessage
| UpdateTypeCallback.

#[global] Instance UpdateType_eq_dec : EqDecision UpdateType.
Proof. solve_decision. Defined.

(** updateTypeEltGet gets type for specified update element *)
Definition updateTypeEltGet (update : Update) : UpdateType :=
  match Message update with
  | Some _ => UpdateTypeMessage
  | None =>
      match CallbackQuery update with
      | Some _ => UpdateTypeCallback
      | None => UpdateTypeUnknown
      end
  end.

(** updateIDsGet gets chat and user ID from specified update element.
    [update.Message.Chat.ID, update.Message.From.ID] and
    [update.CallbackQuery.Message.Chat.ID, update.CallbackQuery.From.ID]
    panic when one of the pointers they go through is [nil]. *)
Definition updateIDsGet (update : Update) : option (Z * Z) :=
  match Message update with
  | Some m =>
      chat ← Chat m; from ← From m; Some (Chat_ID chat, User_ID from)
  | None =>
      match CallbackQuery update with
      | Some c =>
          m ← CQ_Message c; chat ← Chat m; from ← CQ_From c;
          Some (Chat_ID chat, User_ID from)
      | None => Some (0, 0)
      end
  end.

(** updateUserNameGet gets user name from specified update element *)
Definition updateUserNameGet (update : Update) : option string :=
  match Message update with
  | Some m => from ← From m; Some (UserName from)
  | None =>
      match CallbackQuery update with
      | Some c => from ← CQ_From c; Some (UserName from)
      | None => Some EmptyString
      end
  end.

(** ** Update chain (updatechain.go) *)

Record UpdateChain := mkUpdateChain {
  updateType : UpdateType;
  updates : list Update
}.

(** The zero value [UpdateChain{}]. *)
Definition UpdateChain_zero : UpdateChain :=
  {| updateType := UpdateTypeNone; updates := [] |}.

(** One turn of the loop of [UpdateChain.add]. *)
Definition UpdateChain_add_elt (uc : UpdateChain) (u : Update) : UpdateChain :=
  let t := updateTypeEltGet u in
  if decide (t = UpdateTypeUnknown) then uc
  else
    (* If chain has no type yet *)
    let uc1 :=
      if decide (updateType uc = UpdateTypeNone)
      then {| updateType := t; updates := updates uc |}
      else uc in
    (* Skip new elements with different type *)
    if decide (updateType uc1 = t)
    then {| updateType := updateType uc1; updates := updates uc1 ++ [u] |}
    else uc1.

(** add adds new updates into update chain *)
Definition UpdateChain_add (uc : UpdateChain) (us : list Update) : UpdateChain :=
  fold_left UpdateChain_add_elt us uc.

(** The earlier revision of updatechain.go, where the chain carries the
    chat and user the queue was read for and [add] receives them. *)
Module Rev0.

Record UpdateChain := mkUpdateChain {
  updateType : UpdateType;
  chatID : Z;
  userID : Z;
  userName : string;
  updates : list Update
}.

Definition UpdateChain_zero : UpdateChain :=
  {| updateType := UpdateTypeNone; chatID := 0; userID := 0;
     userName := EmptyString; updates := [] |}.

(** One turn of the loop of [add]; [None] when updateUserNameGet or
    updateIDsGet panics. *)
Definition UpdateChain_add_elt (cID uID : Z) (uc : UpdateChain) (u : Update)
  : option UpdateChain :=
  let t := updateTypeEltGet u in
  if decide (t = UpdateTypeUnknown) then Some uc
  else
    (* If chain has no type yet *)
    uc1 ← (if decide (updateType uc = UpdateTypeNone)
           then name ← updateUserNameGet u;
                Some {| updateType := t; chatID := cID; userID := uID;
                        userName := name; updates := updates uc |}
           else Some uc);
    (* Skip new elements with different type *)
    if decide (updateType uc1 = t)
    then
      (* Skip new elements with different chatID or userID *)
      ids ← updateIDsGet u;
      if decide (chatID uc1 ≠ fst ids ∨ userID uc1 ≠ snd ids) then Some uc1
      else Some {| updateType := updateType uc1; chatID := chatID uc1;
                   userID := userID uc1; userName := userName uc1;
                   updates := updates uc1 ++ [u] |}
    else Some uc1.

Fixpoint UpdateChain_add (cID uID : Z) (uc : UpdateChain) (us : list Update)
  : option UpdateChain :=
  match us with
  | [] => Some uc
  | u :: rest =>
      uc1 ← UpdateChain_add_elt cID uID uc u; UpdateChain_add cID uID uc1 rest
  end.

End Rev0.

(** The kind of the first classifiable update of a batch, [UpdateTypeNone]
    when there is none. *)
Definition firstKind (us : list Update) : UpdateType :=
  match filter (λ u, updateTypeEltGet u ≠ UpdateTypeUnknown) us with
  | [] => UpdateTypeNone
  | u :: _ => updateTypeEltGet u
  end.

(** Sample updates. *)
Definition userA : tgUser := {| User_ID := 11; UserName := "alice" |}.
Definition userB : tgUser := {| User_ID := 22; UserName := "bob" |}.

Definition msg (mid : Z) (chat : Z) (u : tgUser) (text : string) : Update :=
  {| UpdateID := mid;
     Message := Some {| MessageID := mid; From := Some u;
                        Chat := Some {| Chat_ID := chat |}; Text := text |};
     CallbackQuery := None |}.

Definition callback (mid : Z) (chat : Z) (u : tgUser) (payload : string) : Update :=
  {| UpdateID := mid;
     Message := None;
     CallbackQuery :=
       Some {| CQ_ID := "cq"; CQ_From := Some u;
               CQ_Message := Some {| MessageID := mid; From := Some u;
                                     Chat := Some {| Chat_ID := chat |};
                                     Text := EmptyString |};
               Data := payload |} |}.

(** A callback query from a message sent in inline mode: it carries no
    message. *)
Definition callback_inline (u : tgUser) (payload : string) : Update :=
  {| UpdateID := 0;
     Message := None;
     CallbackQuery :=
       Some {| CQ_ID := "cq"; CQ_From := Some u; CQ_Message := None;
               Data := payload |} |}.

Definition unknownUpdate : Update :=
  {| UpdateID := 0; Message := None; CallbackQuery := None |}.

(** ** Redis (redis.go)

    The hash [sess], the hash [meta] and the lists [updates:<chat>:<user>],
    each keyed by the pair (chat ID, user ID) that the source prints as
    [<chat>:<user>]. *)

(** data contains session data *)
Record data := mkData {
  data_State : string;
  data_Slots : gmap string (list Byte.byte)
}.

Record redis := mkRedis {
  online : bool;
  h_sess : gmap (Z * Z) data;
  h_meta : gmap (Z * Z) Z;
  l_updates : gmap (Z * Z) (list Update)
}.

Record queueMeta := mkQueueMeta {
  qm_chatID : Z;
  qm_userID : Z;
  waitTill : Z
}.

(** The content of the list [updates:<chat>:<user>] (LRANGE 0 -1). *)
Definition queueBuffer (r : redis) (k : Z * Z) : list Update :=
  default [] (l_updates r !! k).

(** sessSave saves the session into Redis *)
Definition sessSave (chatID userID : Z) (d : data) (r : redis)
  : option error * redis :=
  if online r
  then (None, {| online := online r;
                 h_sess := <[(chatID, userID) := d]> (h_sess r);
                 h_meta := h_meta r;
                 l_updates := l_updates r |})
  else (Some ErrRedis, r).

(** The zero value [data{}] that sessGet returns when there is no record. *)
Definition data_zero : data := {| data_State := EmptyString; data_Slots := ∅ |}.

(** sessGet gets session from Redis *)
Definition sessGet (chatID userID : Z) (r : redis)
  : (data * bool * option error) * redis :=
  if online r
  then match h_sess r !! (chatID, userID) with
       | None => ((data_zero, false, None), r)      (* Key not found *)
       | Some d => ((d, true, None), r)
       end
  else ((data_zero, false, Some ErrRedis), r).

(** queueMetaAdd adds or updates specified meta *)
Definition queueMetaAdd (chatID userID : Z) (till : Z) (r : redis)
  : option error * redis :=
  if online r
  then (None, {| online := online r;
                 h_sess := h_sess r;
                 h_meta := <[(chatID, userID) := till]> (h_meta r);
                 l_updates := l_updates r |})
  else (Some ErrRedis, r).

(** queueMetasGet gets all meta from Redis *)
Definition queueMetasGet (r : redis) : (list queueMeta * option error) * redis :=
  if online r
  then (((λ e, {| qm_chatID := fst (fst e); qm_userID := snd (fst e);
                  waitTill := snd e |})
           <$> map_to_list (h_meta r), None), r)
  else (([], Some ErrRedis), r).

(** queueMetaDel deletes specified meta; the count is the number of fields
    HDEL removed. *)
Definition queueMetaDel (chatID userID : Z) (r : redis)
  : (Z * option error) * redis :=
  if online r
  then ((match h_meta r !! (chatID, userID) with Some _ => 1 | None => 0 end,
         None),
        {| online := online r;
           h_sess := h_sess r;
           h_meta := delete (chatID, userID) (h_meta r);
           l_updates := l_updates r |})
  else ((0, Some ErrRedis), r).

(** queueUpdateAdd adds new update into specified list (RPUSH) *)
Definition queueUpdateAdd (chatID userID : Z) (update : Update) (r : redis)
  : option error * redis :=
  if online r
  then (None, {| online := online r;
                 h_sess := h_sess r;
                 h_meta := h_meta r;
                 l_updates := <[(chatID, userID) :=
                                  queueBuffer r (chatID, userID) ++ [update]]>
                                (l_updates r) |})
  else (Some ErrRedis, r).

(** LLEN of the list of a queue. *)
Definition LLen (k : Z * Z) (r : redis) : (error + nat) * redis :=
  if online r then (inr (length (queueBuffer r k)), r) else (inl ErrRedis, r).

(** LPOP of the list of a queue; Redis drops a list that became empty. *)
Definition LPop (k : Z * Z) (r : redis) : (error + Update) * redis :=
  if online r
  then match queueBuffer r k with
       | [] => (inl rds_Nil, r)
       | u :: rest =>
           (inr u, {| online := online r;
                      h_sess := h_sess r;
                      h_meta := h_meta r;
                      l_updates :=
                        match rest with
                        | [] => delete k (l_updates r)
                        | _ => <[k := rest]> (l_updates r)
                        end |})
       end
  else (inl ErrRedis, r).

(** The loop [for len := l.Val(); len > 0; len--] of queueUpdatesGet. *)
Fixpoint queueUpdatesGet_loop (len : nat) (k : Z * Z) (acc : list Update)
  (r : redis) : (list Update * option error) * redis :=
  match len with
  | O => ((acc, None), r)
  | S len' =>
      match LPop k r with
      | (inl e, r1) => ((acc, Some e), r1)
      | (inr u, r1) => queueUpdatesGet_loop len' k (acc ++ [u]) r1
      end
  end.

(** queueUpdatesGet gets all updates from specified list *)
Definition queueUpdatesGet (chatID userID : Z) (r : redis)
  : (list Update * option error) * redis :=
  match LLen (chatID, userID) r with
  | (inl e, r1) => (([], Some e), r1)
  | (inr len, r1) => queueUpdatesGet_loop len (chatID, userID) [] r1
  end.

(** queueUpdateDel deletes specified list *)
Definition queueUpdateDel (chatID userID : Z) (r : redis)
  : option error * redis :=
  if online r
  then (None, {| online := online r;
                 h_sess := h_sess r;
                 h_meta := h_meta r;
                 l_updates := delete (chatID, userID) (l_updates r) |})
  else (Some ErrRedis, r).

(** sessDel deletes session from Redis *)
Definition sessDel (chatID userID : Z) (r : redis) : option error * redis :=
  if online r
  then
    (* Delete session *)
    let r1 := {| online := online r;
                 h_sess := delete (chatID, userID) (h_sess r);
                 h_meta := h_meta r;
                 l_updates := l_updates r |} in
    (* Delete meta *)
    match queueMetaDel chatID userID r1 with
    | ((_, Some e), r2) => (Some e, r2)
    | ((_, None), r2) => queueUpdateDel chatID userID r2
    end
  else (Some ErrRedis, r).

(** ** Queue (queue.go) *)

Record queue := mkQueue {
  waitInterval : Z
}.

(** add adds element into queue; [now] is the reading of [time.Now()]. *)
Definition queue_add (q : queue) (chatID userID : Z) (update : Update)
  (now : Z) (r : redis) : option error * redis :=
  match queueMetaAdd chatID userID (now + waitInterval q) r with
  | (Some e, r1) => (Some e, r1)
  | (None, r1) =>
      match queueUpdateAdd chatID userID update r1 with
      | (Some e, r2) => (Some e, r2)
      | (None, r2) => (None, r2)
      end
  end.

(** The loop [for _, m := range qm] of chainGet. *)
Fixpoint chainGet_scan (now : Z) (qm : list queueMeta) (r : redis)
  : (UpdateChain * option error) * redis :=
  match qm with
  | [] => ((UpdateChain_zero, None), r)
  | m :: qm' =>
      if decide (waitTill m < now) then          (* time.Now().After(m.waitTill) *)
        (* Delete meta for this queue to prevent queue race with other goroutines *)
        match queueMetaDel (qm_chatID m) (qm_userID m) r with
        | ((_, Some e), r1) => ((UpdateChain_zero, Some e), r1)
        | ((i, None), r1) =>
            if decide (i = 0) then
              (* If other goroutine lock the queue first *)
              chainGet_scan now qm' r1
            else
              match queueUpdatesGet (qm_chatID m) (qm_userID m) r1 with
              | ((_, Some e), r2) => ((UpdateChain_zero, Some e), r2)
              | ((u, None), r2) => ((UpdateChain_add UpdateChain_zero u, None), r2)
              end
        end
      else chainGet_scan now qm' r
  end.

(** chainGet finds available queue and get update chain *)
Definition queue_chainGet (q : queue) (now : Z) (r : redis)
  : (UpdateChain * option error) * redis :=
  match queueMetasGet r with
  | ((_, Some e), r1) => ((UpdateChain_zero, Some e), r1)
  | ((qm, None), r1) => chainGet_scan now qm r1
  end.

(** A run of [add] calls for one conversation, each with its own reading
    of the clock. *)
Definition enqueue_all (q : queue) (chatID userID : Z)
  (calls : list (Z * Update)) (r : redis) : redis :=
  fold_left (λ r c, snd (queue_add q chatID userID (snd c) (fst c) r)) calls r.

Definition redis_empty : redis :=
  {| online := true; h_sess := ∅; h_meta := ∅; l_updates := ∅ |}.

(** ** Session states (session.go) *)

Record SessionState := mkSessionState { state : string }.

#[global] Instance SessionState_eq_dec : EqDecision SessionState.
Proof. solve_decision. Defined.

#[global] Instance SessionState_countable : Countable SessionState :=
  inj_countable' state mkSessionState (λ x, match x with mkSessionState _ => eq_refl end).

(** sessionDestroy it's a 'destroy' session state *)
Definition sessionDestroy : SessionState := {| state := "internal:destroy" |}.

(** sessionBreak it's a 'break' session state *)
Definition sessionBreak : SessionState := {| state := "" |}.

Definition SessStateBreak : SessionState := sessionBreak.
Definition SessStateDestroy : SessionState := sessionDestroy.

Definition SessState (stateName : string) : SessionState :=
  {| state := "user:" +:+ stateName |}.

(** session it is a session context structure *)
Record Session := mkSession {
  chatID : Z;
  userID : Z;
  userName : string;
  updateChain : UpdateChain
}.

(** ** Slots and the persisted state *)

Section Slots.

(** encoding/gob on the values a bot stores: [gobEncode] is
    [gob.NewEncoder(&buf).Encode(data)] with the bytes of [buf],
    [gobDecode] is [gob.NewDecoder(bytes.NewBuffer(ds)).Decode(data)] with
    the value left in [data]. *)
Variable V : Type.
Variable gobEncode : V → option (list Byte.byte).
Variable gobDecode : list Byte.byte → option V.

(** SlotSave saves data into specified slot *)
Definition SlotSave (s : Session) (slot : string) (v : V) (r : redis)
  : option error * redis :=
  match sessGet (chatID s) (userID s) r with
  | ((_, _, Some err), r1) => (Some err, r1)
  | ((d, e, None), r1) =>
      if negb e then (Some (Errorf "session does not exist"), r1)
      else
        (* Encode data to bytes *)
        match gobEncode v with
        | None => (Some ErrGob, r1)
        | Some buf =>
            sessSave (chatID s) (userID s)
              {| data_State := data_State d;
                 data_Slots := <[slot := buf]> (data_Slots d) |} r1
        end
  end.

(** SlotGet gets data from specified slot; the first component is the
    value decoded into the caller's variable, if any. *)
Definition SlotGet (s : Session) (slot : string) (r : redis)
  : (option V * bool * option error) * redis :=
  match sessGet (chatID s) (userID s) r with
  | ((_, _, Some err), r1) => ((None, false, Some err), r1)
  | ((d, e, None), r1) =>
      if negb e then ((None, false, Some (Errorf "session does not exist")), r1)
      else
        match data_Slots d !! slot with
        | None => ((None, false, None), r1)
        | Some ds =>
            match gobDecode ds with
            | None => ((None, false, Some ErrGob), r1)
            | Some v => ((Some v, true, None), r1)
            end
        end
  end.

End Slots.

(** SlotDel deletes spcified slot *)
Definition SlotDel (s : Session) (slot : string) (r : redis)
  : option error * redis :=
  match sessGet (chatID s) (userID s) r with
  | ((_, _, Some err), r1) => (Some err, r1)
  | ((d, e, None), r1) =>
      if negb e then (Some (Errorf "session does not exist"), r1)
      else
        sessSave (chatID s) (userID s)
          {| data_State := data_State d;
             data_Slots := delete slot (data_Slots d) |} r1
  end.

(** stateGet gets current session state *)
Definition StateGet (s : Session) (r : redis)
  : (SessionState * bool * option error) * redis :=
  match sessGet (chatID s) (userID s) r with
  | ((_, _, Some err), r1) => ((sessionBreak, false, Some err), r1)
  | ((d, e, None), r1) => (({| state := data_State d |}, e, None), r1)
  end.

(** stateSet sets session into state `state`.
    Starts new session if not exist *)
Definition stateSet (s : Session) (st : SessionState) (r : redis)
  : option error * redis :=
  match sessGet (chatID s) (userID s) r with
  | ((_, _, Some err), r1) => (Some err, r1)
  | ((d, e, None), r1) =>
      let d' :=
        if negb e
        then {| data_State := state st; data_Slots := ∅ |}
        else {| data_State := state st; data_Slots := data_Slots d |} in
      sessSave (chatID s) (userID s) d' r1
  end.

(** A byte-for-byte codec on strings, standing for gob on string values. *)
Definition gobString (v : string) : option (list Byte.byte) :=
  Some (list_byte_of_string v).
Definition ungobString (b : list Byte.byte) : option string :=
  Some (string_of_list_byte b).

(** ** The bot description and the transport (telegram.go) *)

Record callbackData := mkCallbackData {
  cb_S : string;      (* `json:"s"` *)
  cb_I : string       (* `json:"i"` *)
}.

(** Button contains buttons data for state *)
Record Button := mkButton {
  Button_Text : string;
  Identifier : string
}.

(** An inline keyboard button: its text and the callback data, kept as the
    record that callbackDataGen prints as JSON. *)
Record InlineKeyboardButton := mkInlineKeyboardButton {
  IKB_Text : string;
  IKB_Data : callbackData
}.

(** The two requests SendMessage hands to the bot API. *)
Inductive Chattable : Type :=
| NewMessage (chat : Z) (text : string)
    (markup : list (list InlineKeyboardButton))
| NewEditMessageText (chat : Z) (messageID : Z) (text : string)
    (markup : list (list InlineKeyboardButton)).

(** MessageSent it's an alias for tgbotapi.Message *)
Definition MessageSent : Type := tgMessage.

(** What the handlers and the transport act on: the Redis store and the
    requests that reached the bot API so far. *)
Record World := mkWorld {
  store : redis;
  wire : list Chattable
}.

(** Run a store command in the world. *)
Definition on_store {A : Type} (c : redis → A * redis) (w : World) : A * World :=
  let '(a, r) := c (store w) in (a, {| store := r; wire := wire w |}).

(** tgbotapi.BotAPI: [Send] is the request to Telegram. *)
Record BotAPI := mkBotAPI {
  Send : Chattable → World → (MessageSent * option error) * World
}.

(** SendMessageData contains an options for message *)
Record SendMessageData := mkSendMessageData {
  SMD_Message : string;
  SMD_Buttons : list (list Button);
  SMD_ButtonState : SessionState
}.

(** StateHandlerRes contains data returned by the StateHandler *)
Record StateHandlerRes := mkStateHandlerRes {
  SHR_Message : string;
  SHR_Buttons : list (list Button);
  NextState : SessionState;
  StickMessage : bool
}.

(** State contains session state description.  A [nil] handler is [None];
    the results of the message, callback, init and error handlers are
    their only field, NextState. *)
Record State := mkState {
  StateHandler : option (Session → World → (error + StateHandlerRes) * World);
  MessageHandler : option (Session → World → (error + SessionState) * World);
  CallbackHandler :
    option (Session → string → World → (error + SessionState) * World);
  SentHandler :
    option (Session → list MessageSent → World → option error * World)
}.

(** Description describes bot *)
Record Description := mkDescription {
  States : gmap SessionState State;
  InitHandler : option (Session → World → (error + SessionState) * World);
  ErrorHandler :
    option (Session → error → World → (error + SessionState) * World)
}.

(** Telegram it is a module context structure *)
Record Telegram := mkTelegram {
  bot : BotAPI;
  description : Description
}.

Definition callbackDataGen (st : SessionState) (identifier : string)
  : callbackData :=
  {| cb_S := state st; cb_I := identifier |}.

(** sendMessage sends specified message to client.
    Messages can be of two types: either new message, or edit existing
    message (if messageID is set). *)
Definition SendMessage (t : Telegram) (chat : Z) (messageID : Z)
  (msgData : SendMessageData) (w : World)
  : (list MessageSent * option error) * World :=
  let ikm :=
    map (map (λ be, {| IKB_Text := Button_Text be;
                       IKB_Data := callbackDataGen (SMD_ButtonState msgData)
                                     (Identifier be) |}))
        (SMD_Buttons msgData) in
  let req :=
    if decide (messageID = 0)
    then NewMessage chat (SMD_Message msgData) ikm
    else NewEditMessageText chat messageID (SMD_Message msgData) ikm in
  let '((mr, err), w1) := Send (bot t) req w in
  (([mr], err), w1).

(** ** Reading the chain (updatechain.go) *)

(** MessagesIDGet gets update id from first update element from chain;
    [u.Message.MessageID] and [u.CallbackQuery.Message.MessageID] panic on
    a [nil] pointer. *)
Definition MessagesIDGet (uc : UpdateChain) : option Z :=
  match updates uc with
  | [] => Some 0
  | u :: _ =>
      match updateType uc with
      | UpdateTypeMessage => m ← Message u; Some (MessageID m)
      | UpdateTypeCallback =>
          c ← CallbackQuery u; m ← CQ_Message c; Some (MessageID m)
      | _ => Some 0
      end
  end.

(** callbackDataGet gets callback data from first update element from chain.
    Chain must have callback type *)
Definition callbackDataGet (uc : UpdateChain) : option string :=
  if decide (updateType uc ≠ UpdateTypeCallback) then Some ""
  else match updates uc with
       | [] => Some ""
       | u :: _ => c ← CallbackQuery u; Some (Data c)
       end.

Section Dispatcher.

(** [json.Unmarshal] into a [callbackData]; [None] is a decoding error. *)
Variable jsonUnmarshal : string → option callbackData.

Definition callbackSessionStateGet (uc : UpdateChain)
  : option (SessionState * string * option error) :=
  d ← callbackDataGet uc;
  if decide (String.length d = 0%nat) then Some (sessionBreak, "", None)
  else match jsonUnmarshal d with
       | None => Some (sessionBreak, "", Some ErrJSON)
       | Some cd => Some ({| state := cb_S cd |}, cb_I cd, None)
       end.

(** destroy destroys current session *)
Definition destroy (s : Session) (w : World) : option error * World :=
  on_store (sessDel (chatID s) (userID s)) w.

(** The part of stateSwitch that sends the message of the state handler
    (if set) and reports it to the sent handler. *)
Definition deliver (t : Telegram) (s : Session) (st : State)
  (newState : SessionState) (message : string) (buttons : list (list Button))
  (mID : Z) (w : World) : option error * World :=
  (* Send message to user if set *)
  if decide (0 < String.length message)%nat then
    match SendMessage t (chatID s) mID
            {| SMD_Message := message; SMD_Buttons := buttons;
               SMD_ButtonState := newState |} w with
    | ((_, Some err), w1) => (Some err, w1)
    | ((msgs, None), w1) =>
        match SentHandler st with
        | Some sent => sent s msgs w1
        | None => (None, w1)
        end
    end
  else (None, w).

(** stateSwitch below the two reserved states; [again] is the recursive
    call. *)
Definition stateSwitch_enter
  (again : SessionState → Z → World → option (option error * World))
  (t : Telegram) (s : Session) (newState : SessionState) (messageID : Z)
  (w : World) : option (option error * World) :=
  match States (description t) !! newState with
  | None => Some (Some ErrDescriptionStateMissing, w)
  | Some st =>
      (* Put session into new state *)
      match on_store (stateSet s newState) w with
      | (Some err, w1) => Some (Some err, w1)
      | (None, w1) =>
          match StateHandler st with
          | None =>
              (* Do nothing if state handler not defined *)
              Some (None, w1)
          | Some handler =>
              match handler s w1 with
              | (inl err, w2) =>
                  match ErrorHandler (description t) with
                  | None => Some (Some err, w2)
                  | Some onError =>
                      match onError s err w2 with
                      | (inl err', w3) => Some (Some err', w3)
                      | (inr ns, w3) => again ns 0 w3
                      end
                  end
              | (inr hr, w2) =>
                  let mID := if StickMessage hr then messageID else 0 in
                  match deliver t s st newState (SHR_Message hr)
                          (SHR_Buttons hr) mID w2 with
                  | (Some err, w3) => Some (Some err, w3)
                  | (None, w3) =>
                      (* Do not switch next state if message handler defined *)
                      match MessageHandler st with
                      | Some _ => Some (None, w3)
                      | None => again (NextState hr) mID w3
                      end
                  end
              end
          end
      end
  end.

(** stateSwitch; the recursion of the source is bounded by [fuel], and
    [None] is a run that needs more of it. *)
Fixpoint stateSwitch (fuel : nat) (t : Telegram) (s : Session)
  (newState : SessionState) (messageID : Z) (w : World)
  : option (option error * World) :=
  match fuel with
  | O => None
  | S fuel' =>
      if decide (newState = sessionBreak) then Some (None, w)
      else if decide (newState = sessionDestroy) then Some (destroy s w)
      else stateSwitch_enter (stateSwitch fuel' t s) t s newState messageID w
  end.

(** stateCallbackProcessing processes update chain with `callback` type.
    [None] is a call that does not return: callbackSessionStateGet or
    MessagesIDGet, which is evaluated before the call of stateSwitch it is
    an argument of, panics, or stateSwitch needs more fuel. *)
Definition stateCallbackProcessing (fuel : nat) (t : Telegram) (s : Session)
  (w : World) : option (option error * World) :=
  match callbackSessionStateGet (updateChain s) with
  | None => None
  | Some (_, _, Some err) => Some (Some err, w)
  | Some (cbs, identifier, None) =>
      (* Check the button contains special states *)
      if decide (cbs = sessionBreak ∨ cbs = sessionDestroy)
      then mID ← MessagesIDGet (updateChain s); stateSwitch fuel t s cbs mID w
      else
        (* Get state description *)
        match States (description t) !! cbs with
        | None => Some (Some ErrDescriptionStateMissing, w)
        | Some st =>
            match CallbackHandler st with
            | None => Some (None, w)
            | Some handler =>
                match handler s identifier w with
                | (inl err, w1) =>
                    match ErrorHandler (description t) with
                    | None => Some (Some err, w1)
                    | Some onError =>
                        match onError s err w1 with
                        | (inl err', w2) => Some (Some err', w2)
                        | (inr ns, w2) =>
                            mID ← MessagesIDGet (updateChain s);
                            stateSwitch fuel t s ns mID w2
                        end
                    end
                | (inr ns, w1) =>
                    mID ← MessagesIDGet (updateChain s);
                    stateSwitch fuel t s ns mID w1
                end
            end
        end
  end.

End Dispatcher.

(** ** Sample stores *)

Definition meta_A : queueMeta :=
  {| qm_chatID := 100; qm_userID := 11; waitTill := 5 |}.

(** One conversation with two buffered messages, protected until 5. *)
Definition store_ready : redis :=
  {| online := true;
     h_sess := ∅;
     h_meta := {[ (100, 11) := 5 ]};
     l_updates := {[ (100, 11) := [msg 1 100 userA "a"; msg 2 100 userA "b"] ]} |}.

(** The same conversation after another scanner has deleted its meta and
    before that scanner has read the list. *)
Definition store_claimed : redis :=
  {| online := true;
     h_sess := ∅;
     h_meta := ∅;
     l_updates := {[ (100, 11) := [msg 1 100 userA "a"; msg 2 100 userA "b"] ]} |}.

Definition queue_3 : queue := {| waitInterval := 3 |}.

Definition session_A : Session :=
  {| chatID := 100; userID := 11; userName := "alice";
     updateChain := {| updateType := UpdateTypeMessage;
                       updates := [msg 1 100 userA "hello"] |} |}.

(** A store with a session of [session_A] in the state [user:menu] and one
    slot. *)
Definition store_session : redis :=
  {| online := true;
     h_sess := {[ (100, 11) :=
                    {| data_State := "user:menu";
                       data_Slots := {[ "lang" := list_byte_of_string "en" ]} |} ]};
     h_meta := ∅;
     l_updates := ∅ |}.

(** A run of stateSwitch through a list of states, each of which has a
    state handler that asks for a stick message and names the next state
    of the list (the last one names the break state), where every message
    is sent with the message ID [mid]. *)
Inductive stick_run (t : Telegram) (s : Session) (mid : Z)
  : list SessionState → World → World → Prop :=
| stick_run_end w : stick_run t s mid [] w w
| stick_run_step ns rest st handler hr w w1 w2 w3 w' :
    ns ≠ sessionBreak →
    ns ≠ sessionDestroy →
    States (description t) !! ns = Some st →
    MessageHandler st = None →
    on_store (stateSet s ns) w = (None, w1) →
    StateHandler st = Some handler →
    handler s w1 = (inr hr, w2) →
    StickMessage hr = true →
    deliver t s st ns (SHR_Message hr) (SHR_Buttons hr) mid w2 = (None, w3) →
    NextState hr = hd sessionBreak rest →
    stick_run t s mid rest w3 w' →
    stick_run t s mid (ns :: rest) w w'.

(** ** A sample bot *)

Definition botUser : tgUser := {| User_ID := 1; UserName := "bot" |}.

(** A bot API that numbers new messages from 501 on, answers an edit with
    the message that was edited, and records every request. *)
Definition bot_sample : BotAPI :=
  {| Send := λ c w,
       let mr :=
         match c with
         | NewMessage chat text _ =>
             {| MessageID := 501 + Z.of_nat (length (wire w));
                From := Some botUser; Chat := Some {| Chat_ID := chat |};
                Text := text |}
         | NewEditMessageText chat messageID text _ =>
             {| MessageID := messageID;
                From := Some botUser; Chat := Some {| Chat_ID := chat |};
                Text := text |}
         end in
       ((mr, None), {| store := store w; wire := wire w ++ [c] |}) |}.

(** The result of a state handler of the sample, and the handler: it only
    returns that result. *)
Definition result_of (message : string) (next : SessionState) (stick : bool)
  : StateHandlerRes :=
  {| SHR_Message := message; SHR_Buttons := [];
     NextState := next; StickMessage := stick |}.

Definition handler_of (message : string) (next : SessionState) (stick : bool)
  (_ : Session) (w : World) : (error + StateHandlerRes) * World :=
  (inr (result_of message next stick), w).

Definition state_auto (message : string) (next : SessionState) (stick : bool)
  : State :=
  {| StateHandler := Some (handler_of message next stick);
     MessageHandler := None; CallbackHandler := None; SentHandler := None |}.

Definition onMessage_ask (_ : Session) (w : World)
  : (error + SessionState) * World :=
  (inr (SessState "one"), w).

Definition state_ask : State :=
  {| StateHandler := Some (handler_of "name?" (SessState "two") false);
     MessageHandler := Some onMessage_ask;
     CallbackHandler := None; SentHandler := None |}.

(** A state with a message handler and no state handler. *)
Definition state_wait : State :=
  {| StateHandler := None;
     MessageHandler := Some onMessage_ask;
     CallbackHandler := None; SentHandler := None |}.

(** [one] sends a new message and goes on to [two]; [two], [s1] and [s2]
    ask for a stick message; [ask] waits for a message of the user, though
    its state handler names [two] as the next state; [wait] waits without
    a word. *)
Definition description_sample : Description :=
  {| States :=
       {[ SessState "one" := state_auto "one" (SessState "two") false;
          SessState "two" := state_auto "two" sessionBreak true;
          SessState "s1" := state_auto "first" (SessState "s2") true;
          SessState "s2" := state_auto "second" sessionBreak true;
          SessState "ask" := state_ask;
          SessState "wait" := state_wait ]};
     InitHandler := None;
     ErrorHandler := None |}.

Definition telegram_sample : Telegram :=
  {| bot := bot_sample; description := description_sample |}.

Definition world_session : World := {| store := store_session; wire := [] |}.

(** A stand-in for json.Unmarshal in the examples: the text is the state
    and the identifier is empty; the text [?] does not decode. *)
Definition jsonSample (d : string) : option callbackData :=
  if decide (d = "?") then None else Some {| cb_S := d; cb_I := "" |}.

(** A session whose chain is one callback with the given data, sent from
    the message 77. *)
Definition session_callback (payload : string) : Session :=
  {| chatID := 100; userID := 11; userName := "alice";
     updateChain := {| updateType := UpdateTypeCallback;
                       updates := [callback 77 100 userA payload] |} |}.

(** The world once the session is stored in the given state. *)
Definition world_in (s : Session) (ns : SessionState) (w : World) : World :=
  snd (on_store (stateSet s ns) w).

(** The world once a state of the sample bot has sent its message with the
    message ID [mID]. *)
Definition world_sent (s : Session) (ns : SessionState) (message : string)
  (mID : Z) (w : World) : World :=
  snd (deliver telegram_sample s (state_auto message sessionBreak false) ns
         message [] mID w).

(** The worlds of the run [s1], [s2] that a callback from the message 77
    starts. *)
Definition world_s1_in : World :=
  world_in (session_callback "user:s1") (SessState "s1") world_session.
Definition world_s1_sent : World :=
  world_sent (session_callback "user:s1") (SessState "s1") "first" 77
    world_s1_in.
Definition world_s2_in : World :=
  world_in (session_callback "user:s1") (SessState "s2") world_s1_sent.
Definition world_s2_sent : World :=
  world_sent (session_callback "user:s1") (SessState "s2") "second" 77
    world_s2_in.

(** The worlds of the run [one], [two] that a callback from the message 77
    starts. *)
Definition world_one_in : World :=
  world_in (session_callback "user:one") (SessState "one") world_session.
Definition world_one_sent : World :=
  world_sent (session_callback "user:one") (SessState "one") "one" 0
    world_one_in.

(** ** More of the chain (updatechain.go) *)

(** Get gets all updates from chain *)
Definition Get (uc : UpdateChain) : list Update := updates uc.

(** TypeGet gets chain type *)
Definition TypeGet (uc : UpdateChain) : UpdateType := updateType uc.

(** MessagesIDsGet gets update ids from updates chain; it panics at the
    first update whose [Message], [CallbackQuery] or
    [CallbackQuery.Message] is [nil]. *)
Definition MessagesIDsGet (uc : UpdateChain) : option (list Z) :=
  match updateType uc with
  | UpdateTypeMessage =>
      mapM (λ u, m ← Message u; Some (MessageID m)) (updates uc)
  | UpdateTypeCallback =>
      mapM (λ u, c ← CallbackQuery u; m ← CQ_Message c; Some (MessageID m))
        (updates uc)
  | _ => Some []
  end.

(** CallbackQueryIDGet gets callback ID from first update element from chain.
    Chain must have callback type *)
Definition CallbackQueryIDGet (uc : UpdateChain) : option string :=
  if decide (updateType uc ≠ UpdateTypeCallback) then Some ""
  else match updates uc with
       | [] => Some ""
       | u :: _ => CQ_ID <$> CallbackQuery u
       end.

(** The chains that [add] builds: the kind is not [unknown], a chain of
    kind [none] is empty, and every update is of the kind of the chain. *)
Definition chain_wf (uc : UpdateChain) : Prop :=
  updateType uc ≠ UpdateTypeUnknown
  ∧ (updateType uc = UpdateTypeNone → updates uc = [])
  ∧ Forall (λ u, updateTypeEltGet u = updateType uc) (updates uc).

(** ** Connections (redis.go, queue.go, session.go) *)

(** redisConnect: the PING that a connection starts with. *)
Definition redisConnect (r : redis) : option error :=
  if online r then None else Some ErrRedis.

(** queueInit initiates queue *)
Definition queueInit (wait : Z) (r : redis) : error + queue :=
  match redisConnect r with
  | Some err => inl err
  | None => inr {| waitInterval := wait |}
  end.

(** sessionInit initiates session; [None] when updateIDsGet or
    updateUserNameGet panics on the first update of the chain. *)
Definition sessionInit (uc : UpdateChain) (r : redis)
  : option (error + Session) :=
  match updates uc with
  | [] =>
      (* Skip processing zero-len update chain *)
      Some (inl ErrUpdateChainZeroLen)
  | u :: _ =>
      (* Get chat and user IDs from first update from chain *)
      ids ← updateIDsGet u;
      (* Get user name from first update from chain *)
      name ← updateUserNameGet u;
      match redisConnect r with
      | Some err => Some (inl err)
      | None =>
          Some (inr {| chatID := fst ids; userID := snd ids;
                       userName := name; updateChain := uc |})
      end
  end.

(** Every buffered update carries the chat and the user of its list (and
    so went through updateIDsGet without a panic). *)
Definition queue_keyed (r : redis) : Prop :=
  ∀ k us u, l_updates r !! k = Some us → u ∈ us → updateIDsGet u = Some k.

(** A run of RPUSH commands on the list of one conversation. *)
Definition push_all (chat user : Z) (us : list Update) (r : redis) : redis :=
  fold_left (λ r u, snd (queueUpdateAdd chat user u r)) us r.

(** ** Commands (telegram.go) *)

(** Command contains data for command *)
Record Command := mkCommand {
  Cmd_Command : string;
  Cmd_Description : string;
  Cmd_Handler :
    option (Session → string → string → World → (error + SessionState) * World)
}.

(** commandLookup, on the field Commands of the description. *)
Fixpoint commandLookup (commands : list Command) (cmd : string)
  : option Command :=
  match commands with
  | [] => None
  | c :: rest =>
      if decide (Cmd_Command c = cmd) then Some c else commandLookup rest cmd
  end.

(** ** Routing (session.go, telegram.go) *)

Section Routing.

(** [json.Unmarshal] into a [callbackData], and the methods Command and
    CommandArguments of tgbotapi.Message. *)
Variable jsonUnmarshal : string → option callbackData.
Variable Message_Command : tgMessage → string.
Variable Message_CommandArguments : tgMessage → string.

(** The field Commands of the description of the bot. *)
Variable commands : list Command.

(** commandCheck checks first update element in chain has command signs.
    If so command and its args will be returned.
    Chain must have message type.  [update.Message.Command()] panics on a
    [nil] message. *)
Definition commandCheck (uc : UpdateChain) : option (string * string) :=
  if decide (updateType uc ≠ UpdateTypeMessage) then Some ("", "")
  else match updates uc with
       | [] => Some ("", "")
       | update :: _ =>
           m ← Message update;
           Some (Message_Command m, Message_CommandArguments m)
       end.

(** stateInitProcessing processes session init state *)
Definition stateInitProcessing (fuel : nat) (t : Telegram) (s : Session)
  (w : World) : option (option error * World) :=
  match InitHandler (description t) with
  | None => Some (None, w)
  | Some handler =>
      (* Call initHandler *)
      match handler s w with
      | (inl err, w1) =>
          match ErrorHandler (description t) with
          | None => Some (Some err, w1)
          | Some onError =>
              match onError s err w1 with
              | (inl err', w2) => Some (Some err', w2)
              | (inr ns, w2) => stateSwitch fuel t s ns 0 w2
              end
          end
      | (inr ns, w1) => stateSwitch fuel t s ns 0 w1
      end
  end.

(** stateCommandProcessing lookups and processes command (if described) by
    message text from Telegram update. *)
Definition stateCommandProcessing (fuel : nat) (t : Telegram) (s : Session)
  (w : World) : option ((bool * option error) * World) :=
  (* Check update contains command *)
  ca ← commandCheck (updateChain s);
  let '(cmd, args) := ca in
  if decide (String.length cmd = 0%nat) then Some ((false, None), w)
  else
    (* Check specified command defined in bot description *)
    match commandLookup commands cmd with
    | None => Some ((false, None), w)
    | Some c =>
        (* Check handler defined for command *)
        match Cmd_Handler c with
        | None => Some ((true, None), w)
        | Some handler =>
            match handler s cmd args w with
            | (inl err, w1) =>
                match ErrorHandler (description t) with
                | None => Some ((true, Some err), w1)
                | Some onError =>
                    match onError s err w1 with
                    | (inl err', w2) => Some ((true, Some err'), w2)
                    | (inr ns, w2) =>
                        (λ x, ((true, fst x), snd x))
                          <$> stateSwitch fuel t s ns 0 w2
                    end
                end
            | (inr ns, w1) =>
                (λ x, ((true, fst x), snd x)) <$> stateSwitch fuel t s ns 0 w1
            end
        end
    end.

(** stateMessageProcessing processes update chain with `message` type *)
Definition stateMessageProcessing (fuel : nat) (t : Telegram) (s : Session)
  (w : World) : option (option error * World) :=
  (* Get current session *)
  match on_store (StateGet s) w with
  | ((_, _, Some err), w1) => Some (Some err, w1)
  | ((cs, e, None), w1) =>
      (* If session does not exist *)
      if negb e then stateInitProcessing fuel t s w1
      else
        (* Get state description *)
        match States (description t) !! cs with
        | None => Some (Some ErrDescriptionStateMissing, w1)
        | Some st =>
            match MessageHandler st with
            | None => Some (None, w1)
            | Some handler =>
                match handler s w1 with
                | (inl err, w2) =>
                    match ErrorHandler (description t) with
                    | None => Some (Some err, w2)
                    | Some onError =>
                        match onError s err w2 with
                        | (inl err', w3) => Some (Some err', w3)
                        | (inr ns, w3) => stateSwitch fuel t s ns 0 w3
                        end
                    end
                | (inr ns, w2) => stateSwitch fuel t s ns 0 w2
                end
            end
        end
  end.

(** stateProcessing processes current session state.
    It's initial point to route processing into appropriate state
    in accordance with update chain *)
Definition stateProcessing (fuel : nat) (t : Telegram) (s : Session)
  (w : World) : option (option error * World) :=
  (* Check `update` is a defined command *)
  match stateCommandProcessing fuel t s w with
  | None => None
  | Some ((b, err), w1) =>
      if b then
        (* If command were found *)
        Some (err, w1)
      else
        match TypeGet (updateChain s) with
        | UpdateTypeMessage => stateMessageProcessing fuel t s w1
        | UpdateTypeCallback => stateCallbackProcessing jsonUnmarshal fuel t s w1
        | _ => Some (None, w1)
        end
  end.

(** Processing processes available updates from queue; [wait] is the field
    updateQueueWait and [now] the reading of the clock in chainGet. *)
Definition Processing (wait : Z) (fuel : nat) (t : Telegram) (now : Z)
  (w : World) : option (option error * World) :=
  match queueInit wait (store w) with
  | inl err => Some (Some err, w)
  | inr q =>
      (* Get all available updates from queue *)
      match on_store (queue_chainGet q now) w with
      | ((_, Some err), w1) => Some (Some err, w1)
      | ((uc, None), w1) =>
          match sessionInit uc (store w1) with
          | None => None
          | Some (inl err) =>
              if decide (err = ErrUpdateChainZeroLen) then Some (None, w1)
              else Some (Some err, w1)
          | Some (inr sess) => stateProcessing fuel t sess w1
          end
      end
  end.

End Routing.

Section Absorb.

(** The answer to a callback query, [t.bot.Request(tgbotapi.NewCallback(id,
    ""))], whose result the source drops. *)
Variable answerCallback : string → World → World.

(** UpdateAbsorb absorbs specified `update` and put it into queue; [wait]
    is the field updateQueueWait and [now] the reading of the clock in
    add.  Its first statement is the call of updateIDsGet: [None] is the
    panic of that call, before anything else is done. *)
Definition UpdateAbsorb (wait : Z) (update : Update) (now : Z) (w : World)
  : option (option error * World) :=
  ids ← updateIDsGet update;
  let '(chat, user) := ids in
  let w1 :=
    match CallbackQuery update with
    | Some c => answerCallback (CQ_ID c) w
    | None => w
    end in
  if decide (chat = 0 ∨ user = 0) then Some (None, w1)
  else
    match queueInit wait (store w1) with
    | inl err => Some (Some err, w1)
    | inr q => Some (on_store (queue_add q chat user update now) w1)
    end.

End Absorb.

(** ** More sample data *)

(** A state whose handler sends nothing and names the state itself. *)
Definition state_loop : State :=
  {| StateHandler := Some (handler_of "" (SessState "loop") false);
     MessageHandler := None; CallbackHandler := None; SentHandler := None |}.

Definition telegram_loop : Telegram :=
  {| bot := bot_sample;
     description :=
       {| States := {[ SessState "loop" := state_loop ]};
          InitHandler := None; ErrorHandler := None |} |}.

(** The command [start] goes to the state [ask]; the command [help] has no
    handler. *)
Definition commands_sample : list Command :=
  [ {| Cmd_Command := "start"; Cmd_Description := "start the bot";
       Cmd_Handler := Some (λ _ _ _ w, (inr (SessState "ask"), w)) |};
    {| Cmd_Command := "help"; Cmd_Description := "help";
       Cmd_Handler := None |} ].

(** A stand-in for the method Command of tgbotapi.Message in the examples:
    the text after a leading slash. *)
Definition commandSample (m : tgMessage) : string :=
  match Text m with
  | String "/"%char rest => rest
  | _ => ""
  end.

Definition argumentsSample (_ : tgMessage) : string := "".

Definition session_text (text : string) : Session :=
  {| chatID := 100; userID := 11; userName := "alice";
     updateChain := {| updateType := UpdateTypeMessage;
                       updates := [msg 1 100 userA text] |} |}.

(** A state that waits for a message and whose state handler fails, in a
    description whose ErrorHandler sends the session to [two]. *)
Definition state_broken : State :=
  {| StateHandler := Some (λ _ w, (inl (ErrUser "no data"), w));
     MessageHandler := Some onMessage_ask;
     CallbackHandler := None; SentHandler := None |}.

Definition onError_sample (_ : Session) (_ : error) (w : World)
  : (error + SessionState) * World :=
  (inr (SessState "two"), w).

Definition telegram_recover : Telegram :=
  {| bot := bot_sample;
     description :=
       {| States := {[ SessState "broken" := state_broken;
                       SessState "two" := state_auto "two" sessionBreak true ]};
          InitHandler := None;
          ErrorHandler := Some onError_sample |} |}.

(** A bot API that takes the answer to a callback query and keeps no
    record of it. *)
Definition answerSample (_ : string) (w : World) : World := w.

Definition store_offline : redis :=
  {| online := false;
     h_sess := h_sess store_session;
     h_meta := h_meta store_ready;
     l_updates := l_updates store_ready |}.

(** * Properties *)

(** Facts about the sample data are settled by evaluation. *)
Ltac sample_fact := first [discriminate | reflexivity | vm_compute; reflexivity].

(** ** The update chain *)

Lemma updateTypeEltGet_not_none u : updateTypeEltGet u ≠ UpdateTypeNone.
Proof.
  unfold updateTypeEltGet.
  destruct (Message u); [discriminate|].
  destruct (CallbackQuery u); discriminate.
Qed.

Lemma firstKind_cons u us :
  firstKind (u :: us) =
    if decide (updateTypeEltGet u = UpdateTypeUnknown) then firstKind us
    else updateTypeEltGet u.
Proof.
  unfold firstKind. rewrite filter_cons.
  destruct (decide (updateTypeEltGet u = UpdateTypeUnknown)) as [E|E].
  - rewrite decide_False by (intros H; apply H, E). reflexivity.
  - rewrite decide_True by exact E. reflexivity.
Qed.

Lemma firstKind_not_unknown us : firstKind us ≠ UpdateTypeUnknown.
Proof.
  induction us as [|u us IH]; [discriminate|].
  rewrite firstKind_cons. case_decide; assumption.
Qed.

(** Once the chain has a kind, [add] keeps the updates of that kind. *)
Lemma UpdateChain_add_typed us : ∀ uc,
  updateType uc ≠ UpdateTypeNone →
  updateType uc ≠ UpdateTypeUnknown →
  UpdateChain_add uc us =
    {| updateType := updateType uc;
       updates := updates uc
                  ++ filter (λ u, updateTypeEltGet u = updateType uc) us |}.
Proof.
  induction us as [|u us IH]; intros uc Hn Hu.
  - simpl. rewrite app_nil_r. destruct uc; reflexivity.
  - unfold UpdateChain_add in *. simpl fold_left. rewrite filter_cons.
    unfold UpdateChain_add_elt at 2.
    destruct (decide (updateTypeEltGet u = UpdateTypeUnknown)) as [E|E].
    + rewrite decide_False by congruence. apply IH; assumption.
    + rewrite (decide_False (P := updateType uc = UpdateTypeNone)) by assumption.
      destruct (decide (updateType uc = updateTypeEltGet u)) as [E'|E'].
      * rewrite decide_True by congruence.
        rewrite IH by assumption. simpl. rewrite <- app_assoc. reflexivity.
      * rewrite decide_False by congruence. apply IH; assumption.
Qed.

Lemma UpdateChain_add_zero us :
  UpdateChain_add UpdateChain_zero us =
    {| updateType := firstKind us;
       updates := filter (λ u, updateTypeEltGet u = firstKind us) us |}.
Proof.
  induction us as [|u us IH]; [reflexivity|].
  rewrite firstKind_cons, filter_cons.
  unfold UpdateChain_add in *. simpl fold_left.
  unfold UpdateChain_add_elt at 2.
  destruct (decide (updateTypeEltGet u = UpdateTypeUnknown)) as [E|E].
  - rewrite decide_False.
    + exact IH.
    + rewrite E. intros H. symmetry in H. revert H. apply firstKind_not_unknown.
  - simpl. rewrite decide_True by reflexivity.
    rewrite decide_True by reflexivity.
    pose proof (UpdateChain_add_typed us
      {| updateType := updateTypeEltGet u; updates := [u] |}) as H.
    unfold UpdateChain_add in H. rewrite H.
    + reflexivity.
    + apply updateTypeEltGet_not_none.
    + exact E.
Qed.

(** updateIDsGet goes through every pointer updateUserNameGet goes
    through. *)
Lemma updateIDsGet_updateUserNameGet u :
  is_Some (updateIDsGet u) → is_Some (updateUserNameGet u).
Proof.
  unfold updateIDsGet, updateUserNameGet. intros [ids H].
  destruct (Message u) as [m|].
  - destruct (Chat m); simpl in H; [|discriminate].
    destruct (From m); simpl in H; [|discriminate]. simpl. eauto.
  - destruct (CallbackQuery u) as [c|]; [|eauto].
    destruct (CQ_Message c) as [m|]; simpl in H; [|discriminate].
    destruct (Chat m); simpl in H; [|discriminate].
    destruct (CQ_From c); simpl in H; [|discriminate]. simpl. eauto.
Qed.

Lemma Rev0_add_typed c i us : ∀ uc uc',
  Rev0.updateType uc ≠ UpdateTypeNone →
  Rev0.updateType uc ≠ UpdateTypeUnknown →
  Rev0.chatID uc = c → Rev0.userID uc = i →
  Rev0.UpdateChain_add c i uc us = Some uc' →
  uc' =
    {| Rev0.updateType := Rev0.updateType uc;
       Rev0.chatID := c; Rev0.userID := i;
       Rev0.userName := Rev0.userName uc;
       Rev0.updates :=
         Rev0.updates uc
         ++ filter (λ u, updateTypeEltGet u = Rev0.updateType uc
                         ∧ updateIDsGet u = Some (c, i)) us |}.
Proof.
  induction us as [|u us IH]; intros uc uc' Hn Hu Hc Hi Hadd.
  - simpl in Hadd. injection Hadd as <-. simpl. rewrite app_nil_r.
    destruct uc; simpl in *; congruence.
  - simpl in Hadd.
    destruct (Rev0.UpdateChain_add_elt c i uc u) as [uc1|] eqn:Eelt;
      simpl in Hadd; [|discriminate].
    rewrite filter_cons. unfold Rev0.UpdateChain_add_elt in Eelt.
    destruct (decide (updateTypeEltGet u = UpdateTypeUnknown)) as [E|E].
    + injection Eelt as <-.
      rewrite decide_False by (intros [? ?]; congruence).
      apply IH; assumption.
    + rewrite (decide_False (P := Rev0.updateType uc = UpdateTypeNone))
        in Eelt by assumption.
      simpl in Eelt.
      destruct (decide (Rev0.updateType uc = updateTypeEltGet u)) as [E'|E'].
      * destruct (updateIDsGet u) as [[c' i']|] eqn:Eid; simpl in Eelt;
          [|discriminate].
        destruct (decide (Rev0.chatID uc ≠ c' ∨ Rev0.userID uc ≠ i')) as [D|D].
        -- injection Eelt as <-. rewrite decide_False.
           ++ apply IH; assumption.
           ++ intros [_ H]. injection H as -> ->. destruct D; congruence.
        -- injection Eelt as <-.
           assert (c' = c ∧ i' = i) as [-> ->].
           { split.
             - destruct (decide (c' = c)); [assumption|].
               exfalso. apply D. left. congruence.
             - destruct (decide (i' = i)); [assumption|].
               exfalso. apply D. right. congruence. }
           rewrite decide_True by (split; congruence).
           apply IH in Hadd; [|simpl; assumption ..].
           rewrite Hadd. simpl. rewrite <- app_assoc. reflexivity.
      * injection Eelt as <-.
        rewrite decide_False by (intros [? ?]; congruence).
        apply IH; assumption.
Qed.

Lemma Rev0_add_zero_updates c i us : ∀ uc',
  Rev0.UpdateChain_add c i Rev0.UpdateChain_zero us = Some uc' →
  Rev0.updates uc' =
    filter (λ u, updateTypeEltGet u = firstKind us
                 ∧ updateIDsGet u = Some (c, i)) us.
Proof.
  induction us as [|u us IH]; intros uc' Hadd.
  - simpl in Hadd. injection Hadd as <-. reflexivity.
  - rewrite firstKind_cons, filter_cons. simpl in Hadd.
    destruct (Rev0.UpdateChain_add_elt c i Rev0.UpdateChain_zero u)
      as [uc1|] eqn:Eelt; simpl in Hadd; [|discriminate].
    unfold Rev0.UpdateChain_add_elt in Eelt.
    destruct (decide (updateTypeEltGet u = UpdateTypeUnknown)) as [E|E].
    + injection Eelt as <-. rewrite decide_False.
      * apply IH, Hadd.
      * rewrite E. intros [H _]. symmetry in H. revert H.
        apply firstKind_not_unknown.
    + simpl in Eelt.
      destruct (updateUserNameGet u) as [name|]; simpl in Eelt;
        [|discriminate].
      rewrite decide_True in Eelt by reflexivity.
      destruct (updateIDsGet u) as [[c' i']|] eqn:Eid; simpl in Eelt;
        [|discriminate].
      destruct (decide (c ≠ c' ∨ i ≠ i')) as [D|D]; injection Eelt as <-.
      * rewrite decide_False.
        -- apply Rev0_add_typed in Hadd;
             [| apply updateTypeEltGet_not_none | exact E
              | reflexivity | reflexivity].
           rewrite Hadd. reflexivity.
        -- intros [_ H]. injection H as -> ->. destruct D; congruence.
      * assert (c' = c ∧ i' = i) as [-> ->].
        { split.
          - destruct (decide (c' = c)); [assumption|].
            exfalso. apply D. left. congruence.
          - destruct (decide (i' = i)); [assumption|].
            exfalso. apply D. right. congruence. }
        rewrite decide_True by (split; reflexivity).
        apply Rev0_add_typed in Hadd;
          [| apply updateTypeEltGet_not_none | exact E
           | reflexivity | reflexivity].
        rewrite Hadd. reflexivity.
Qed.

(** The earlier [add] returns when updateIDsGet returns on every update
    that is a message or a callback query. *)
Lemma Rev0_add_returns c i us : ∀ uc,
  Forall (λ u, updateTypeEltGet u ≠ UpdateTypeUnknown
               → is_Some (updateIDsGet u)) us →
  is_Some (Rev0.UpdateChain_add c i uc us).
Proof.
  induction us as [|u us IH]; intros uc Hall; [simpl; eauto|].
  inversion Hall as [|? ? Hu Hrest]; subst. simpl.
  assert (Helt : is_Some (Rev0.UpdateChain_add_elt c i uc u)).
  { unfold Rev0.UpdateChain_add_elt.
    destruct (decide (updateTypeEltGet u = UpdateTypeUnknown)) as [E|E];
      [eauto|].
    destruct (Hu E) as [ids Hids].
    destruct (updateIDsGet_updateUserNameGet u) as [name Hname]; [eauto|].
    rewrite Hname, Hids. simpl.
    repeat (case_decide; simpl; eauto). }
  destruct Helt as [uc1 ->]. simpl. apply IH, Hrest.
Qed.

Example add_same_identity_mixed_kinds :
  UpdateChain_add UpdateChain_zero
    [msg 1 100 userA "a"; msg 2 100 userA "b"; callback 3 100 userA "x"]
  = {| updateType := UpdateTypeMessage;
       updates := [msg 1 100 userA "a"; msg 2 100 userA "b"] |}.
Proof. reflexivity. Qed.

Example add_skips_unclassified :
  UpdateChain_add UpdateChain_zero
    [unknownUpdate; callback 3 100 userA "x"; msg 1 100 userA "a"]
  = {| updateType := UpdateTypeCallback;
       updates := [callback 3 100 userA "x"] |}.
Proof. reflexivity. Qed.

(** C3, as stated, fails on [UpdateChain.add]: two messages of two
    different conversations both stay in the chain, which then has length
    2 and not 1. *)
Lemma add_keeps_other_identity :
  let a := msg 1 100 userA "a" in
  let b := msg 2 200 userB "b" in
  let uc := UpdateChain_add UpdateChain_zero [a; b] in
  updateIDsGet a ≠ updateIDsGet b
  ∧ b ∈ updates uc
  ∧ length (updates uc) = 2%nat
  ∧ length (updates uc) ≠ 1%nat.
Proof.
  cbv zeta. split; [discriminate|].
  split; [|split; [reflexivity | discriminate]].
  apply list_elem_of_In. right. left. reflexivity.
Qed.

(** C3 (amended): [UpdateChain.add] on an empty chain takes the kind of the
    first classifiable update and keeps exactly the updates of that kind,
    in order, whatever their chat and user; the earlier [add] with the
    chat and user of the queue as arguments, when it returns, keeps
    exactly the updates of that kind that also carry that chat and user,
    and it returns whenever updateIDsGet returns on every classifiable
    update. *)
Theorem add_filters_by_first_kind (us : list Update) :
  updateType (UpdateChain_add UpdateChain_zero us) = firstKind us
  ∧ updates (UpdateChain_add UpdateChain_zero us)
    = filter (λ u, updateTypeEltGet u = firstKind us) us
  ∧ ∀ c i : Z,
      (∀ uc',
         Rev0.UpdateChain_add c i Rev0.UpdateChain_zero us = Some uc' →
         Rev0.updates uc'
         = filter (λ u, updateTypeEltGet u = firstKind us
                        ∧ updateIDsGet u = Some (c, i)) us)
      ∧ (Forall (λ u, updateTypeEltGet u ≠ UpdateTypeUnknown
                      → is_Some (updateIDsGet u)) us →
         is_Some (Rev0.UpdateChain_add c i Rev0.UpdateChain_zero us)).
Proof.
  rewrite UpdateChain_add_zero. simpl.
  split; [reflexivity|]. split; [reflexivity|].
  intros c i. split.
  - apply Rev0_add_zero_updates.
  - apply Rev0_add_returns.
Qed.

Lemma add_filters_by_first_kind_witness :
  updates (UpdateChain_add UpdateChain_zero
             [msg 1 100 userA "a"; callback 3 100 userA "x";
              msg 2 200 userB "b"])
  = [msg 1 100 userA "a"; msg 2 200 userB "b"]
  ∧ ∃ uc',
      Rev0.UpdateChain_add 100 11 Rev0.UpdateChain_zero
        [msg 1 100 userA "a"; callback 3 100 userA "x"; msg 2 200 userB "b"]
      = Some uc'
      ∧ Rev0.updates uc' = [msg 1 100 userA "a"].
Proof.
  destruct (add_filters_by_first_kind
              [msg 1 100 userA "a"; callback 3 100 userA "x";
               msg 2 200 userB "b"]) as (_ & H2 & H3).
  split; [rewrite H2; reflexivity|].
  destruct (H3 100 11) as [Hpart Htotal].
  destruct Htotal as [uc' Huc'].
  { repeat constructor; intros _; vm_compute; eauto. }
  exists uc'. split; [exact Huc'|].
  rewrite (Hpart uc' Huc'). reflexivity.
Defined.

Example rev0_add_drops_other_identity :
  Rev0.updates
    <$> Rev0.UpdateChain_add 100 11 Rev0.UpdateChain_zero
          [msg 1 100 userA "a"; msg 2 200 userB "b"]
  = Some [msg 1 100 userA "a"].
Proof. reflexivity. Qed.

Example rev0_add_panics_on_inline_callback :
  Rev0.UpdateChain_add 100 11 Rev0.UpdateChain_zero
    [callback 3 100 userA "x"; callback_inline userA "y"]
  = None.
Proof. reflexivity. Qed.

(** ** The Redis commands *)

(** The loop of queueUpdatesGet pops the whole list when it is entered with
    the length of the list. *)
Lemma queueUpdatesGet_loop_all k : ∀ (l acc : list Update) (r : redis),
  online r = true →
  queueBuffer r k = l →
  ∃ r', queueUpdatesGet_loop (length l) k acc r = ((acc ++ l, None), r')
        ∧ online r' = true
        ∧ h_sess r' = h_sess r
        ∧ h_meta r' = h_meta r
        ∧ queueBuffer r' k = []
        ∧ ∀ k', k' ≠ k → l_updates r' !! k' = l_updates r !! k'.
Proof.
  induction l as [|u l IH]; intros acc r Hon Hb.
  - exists r. simpl. rewrite app_nil_r. repeat split; auto.
  - simpl. unfold LPop. rewrite Hon, Hb.
    match goal with
    | |- context [queueUpdatesGet_loop _ _ _ ?r1] => set (r1' := r1)
    end.
    assert (Hb1 : queueBuffer r1' k = l).
    { unfold queueBuffer, r1'. simpl. destruct l.
      - rewrite lookup_delete_eq. reflexivity.
      - rewrite lookup_insert_eq. reflexivity. }
    destruct (IH (acc ++ [u]) r1' eq_refl Hb1)
      as (r' & Hrun & Hon' & Hs & Hm & Hb' & Hother).
    exists r'. rewrite Hrun, <- app_assoc. simpl.
    repeat split; auto.
    intros k' Hk. rewrite (Hother k' Hk). unfold r1'. simpl.
    destruct l.
    + apply lookup_delete_ne. congruence.
    + apply lookup_insert_ne. congruence.
Qed.

Lemma queueUpdatesGet_all c i r :
  online r = true →
  ∃ r', queueUpdatesGet c i r = ((queueBuffer r (c, i), None), r')
        ∧ online r' = true
        ∧ h_sess r' = h_sess r
        ∧ h_meta r' = h_meta r
        ∧ queueBuffer r' (c, i) = []
        ∧ ∀ k', k' ≠ (c, i) → l_updates r' !! k' = l_updates r !! k'.
Proof.
  intros Hon. unfold queueUpdatesGet, LLen. rewrite Hon.
  apply (queueUpdatesGet_loop_all (c, i) (queueBuffer r (c, i)) [] r Hon eq_refl).
Qed.

Lemma queueMetaDel_online c i r :
  online r = true →
  queueMetaDel c i r =
    ((match h_meta r !! (c, i) with Some _ => 1 | None => 0 end, None),
     {| online := true; h_sess := h_sess r;
        h_meta := delete (c, i) (h_meta r); l_updates := l_updates r |}).
Proof. intros Hon. unfold queueMetaDel. rewrite Hon. reflexivity. Qed.


(** ** The queue *)

Lemma redis_eta r :
  {| online := online r; h_sess := h_sess r; h_meta := h_meta r;
     l_updates := l_updates r |} = r.
Proof. destruct r; reflexivity. Qed.

(** An entry that is not ready is passed over without a command. *)
Lemma chainGet_scan_not_ready now m qm r :
  ¬ waitTill m < now →
  chainGet_scan now (m :: qm) r = chainGet_scan now qm r.
Proof. intros H. simpl. rewrite decide_False by exact H. reflexivity. Qed.

(** A ready entry whose meta is gone is passed over, the store unchanged. *)
Lemma chainGet_scan_lost now m qm r :
  online r = true →
  waitTill m < now →
  h_meta r !! (qm_chatID m, qm_userID m) = None →
  chainGet_scan now (m :: qm) r = chainGet_scan now qm r.
Proof.
  intros Hon Hready Hgone. simpl.
  rewrite decide_True by exact Hready.
  rewrite (queueMetaDel_online _ _ _ Hon), Hgone.
  rewrite decide_True by reflexivity.
  rewrite (delete_id _ _ Hgone), <- Hon. rewrite redis_eta. reflexivity.
Qed.

(** A ready entry whose meta is still there is claimed. *)
Lemma chainGet_scan_won now m qm r :
  online r = true →
  waitTill m < now →
  is_Some (h_meta r !! (qm_chatID m, qm_userID m)) →
  ∃ r2,
    chainGet_scan now (m :: qm) r =
      ((UpdateChain_add UpdateChain_zero
          (queueBuffer r (qm_chatID m, qm_userID m)), None), r2)
    ∧ online r2 = true
    ∧ h_sess r2 = h_sess r
    ∧ h_meta r2 = delete (qm_chatID m, qm_userID m) (h_meta r)
    ∧ queueBuffer r2 (qm_chatID m, qm_userID m) = []
    ∧ ∀ k', k' ≠ (qm_chatID m, qm_userID m) →
            l_updates r2 !! k' = l_updates r !! k'.
Proof.
  intros Hon Hready [w Hw]. simpl.
  rewrite decide_True by exact Hready.
  rewrite (queueMetaDel_online _ _ _ Hon), Hw.
  rewrite decide_False by discriminate.
  match goal with
  | |- context [queueUpdatesGet _ _ ?r1] =>
      destruct (queueUpdatesGet_all (qm_chatID m) (qm_userID m) r1 eq_refl)
        as (r2 & Hget & Hon2 & Hs & Hm & Hb & Hother)
  end.
  exists r2. rewrite Hget. repeat split; auto.
Qed.

(** A scan in which no entry is both ready and still in [meta] returns
    the empty chain and leaves the store as it was. *)
Lemma chainGet_scan_nothing now : ∀ qm r,
  online r = true →
  (∀ m, m ∈ qm → waitTill m < now →
        h_meta r !! (qm_chatID m, qm_userID m) = None) →
  chainGet_scan now qm r = ((UpdateChain_zero, None), r).
Proof.
  induction qm as [|m qm IH]; intros r Hon Hall; [reflexivity|].
  destruct (decide (waitTill m < now)) as [Hready|Hnot].
  - rewrite chainGet_scan_lost; auto.
    + apply IH; auto. intros m' Hin. apply Hall. right. exact Hin.
    + apply Hall; [left|exact Hready].
  - rewrite chainGet_scan_not_ready by exact Hnot.
    apply IH; auto. intros m' Hin. apply Hall. right. exact Hin.
Qed.

(** C1: in the scan of chainGet, a ready entry whose meta deletion reports
    0 deleted fields is passed over without an error and the scan goes on
    with the next entry; a ready entry whose deletion reports at least one
    deleted field is claimed: its whole list of updates is read and
    cleared and the chain built from it is returned with no error; a scan
    with no entry that is ready and still has its meta returns the empty
    chain with no error. *)
Theorem chainGet_claims_by_delete (now : Z) (m : queueMeta)
  (qm : list queueMeta) (r : redis) :
  online r = true →
  waitTill m < now →
  (fst (fst (queueMetaDel (qm_chatID m) (qm_userID m) r)) = 0 →
     chainGet_scan now (m :: qm) r = chainGet_scan now qm r)
  ∧ (1 ≤ fst (fst (queueMetaDel (qm_chatID m) (qm_userID m) r)) →
     ∃ r2,
       chainGet_scan now (m :: qm) r =
         ((UpdateChain_add UpdateChain_zero
             (queueBuffer r (qm_chatID m, qm_userID m)), None), r2)
       ∧ h_meta r2 !! (qm_chatID m, qm_userID m) = None
       ∧ queueBuffer r2 (qm_chatID m, qm_userID m) = [])
  ∧ ((∀ m', m' ∈ qm →
            waitTill m' < now →
            fst (fst (queueMetaDel (qm_chatID m') (qm_userID m') r)) = 0) →
     chainGet_scan now qm r = ((UpdateChain_zero, None), r)).
Proof.
  intros Hon Hready.
  assert (Hcount : ∀ c i,
    fst (fst (queueMetaDel c i r)) = 0 ↔ h_meta r !! (c, i) = None).
  { intros c i. rewrite (queueMetaDel_online _ _ _ Hon). simpl.
    destruct (h_meta r !! (c, i)); split; intros; try discriminate; auto. }
  split; [|split].
  - intros H0. apply chainGet_scan_lost; auto. apply Hcount, H0.
  - intros H1.
    destruct (chainGet_scan_won now m qm r Hon Hready)
      as (r2 & Hrun & _ & _ & Hm & Hb & _).
    { destruct (h_meta r !! (qm_chatID m, qm_userID m)) eqn:E; [eauto|].
      apply Hcount in E. lia. }
    exists r2. split; [exact Hrun|]. split; [|exact Hb].
    rewrite Hm. apply lookup_delete_eq.
  - intros Hall. apply chainGet_scan_nothing; auto.
    intros m' Hin Hr. apply Hcount. apply Hall; assumption.
Qed.

Lemma chainGet_claims_by_delete_witness :
  chainGet_scan 10 [meta_A] store_claimed = chainGet_scan 10 [] store_claimed
  ∧ (∃ r2,
       chainGet_scan 10 [meta_A] store_ready =
         ((UpdateChain_add UpdateChain_zero
             (queueBuffer store_ready (qm_chatID meta_A, qm_userID meta_A)),
           None), r2)
       ∧ h_meta r2 !! (qm_chatID meta_A, qm_userID meta_A) = None
       ∧ queueBuffer r2 (qm_chatID meta_A, qm_userID meta_A) = [])
  ∧ chainGet_scan 10 [meta_A] store_claimed
    = ((UpdateChain_zero, None), store_claimed).
Proof.
  split; [|split].
  - apply (chainGet_claims_by_delete 10 meta_A [] store_claimed);
      reflexivity.
  - apply (chainGet_claims_by_delete 10 meta_A [] store_ready);
      [reflexivity | reflexivity | vm_compute; discriminate].
  - apply (chainGet_claims_by_delete 10 meta_A [meta_A] store_claimed);
      [reflexivity | reflexivity |].
    intros m' Hin _. apply list_elem_of_singleton in Hin. subst m'.
    reflexivity.
Defined.

Example chainGet_drains_ready_queue :
  queue_chainGet queue_3 10 store_ready =
    (({| updateType := UpdateTypeMessage;
         updates := [msg 1 100 userA "a"; msg 2 100 userA "b"] |}, None),
     redis_empty).
Proof. vm_compute. reflexivity. Qed.

Example chainGet_waits_for_window :
  queue_chainGet queue_3 5 store_ready = ((UpdateChain_zero, None), store_ready).
Proof. vm_compute. reflexivity. Qed.

(** add on a store that answers: the meta is overwritten with the reading
    of the clock plus the interval and the update goes to the end of the
    list. *)
Lemma queue_add_online q c i u now r :
  online r = true →
  queue_add q c i u now r =
    (None,
     {| online := true;
        h_sess := h_sess r;
        h_meta := <[(c, i) := now + waitInterval q]> (h_meta r);
        l_updates := <[(c, i) := queueBuffer r (c, i) ++ [u]]> (l_updates r) |}).
Proof.
  intros Hon. unfold queue_add, queueMetaAdd, queueUpdateAdd. rewrite Hon.
  simpl. reflexivity.
Qed.


Lemma enqueue_all_app q c i calls1 calls2 r :
  enqueue_all q c i (calls1 ++ calls2) r =
    enqueue_all q c i calls2 (enqueue_all q c i calls1 r).
Proof. unfold enqueue_all. apply fold_left_app. Qed.

(** The scan leaves alone every conversation that has no ready entry in
    the list it goes through. *)
Lemma chainGet_scan_frame now k : ∀ qm r,
  (∀ m, m ∈ qm → (qm_chatID m, qm_userID m) = k → ¬ waitTill m < now) →
  h_meta (snd (chainGet_scan now qm r)) !! k = h_meta r !! k
  ∧ l_updates (snd (chainGet_scan now qm r)) !! k = l_updates r !! k.
Proof.
  induction qm as [|m qm IH]; intros r Hall; [split; reflexivity|].
  assert (Hrest : ∀ m', m' ∈ qm →
            (qm_chatID m', qm_userID m') = k → ¬ waitTill m' < now).
  { intros m' Hin. apply Hall. right. exact Hin. }
  destruct (decide (waitTill m < now)) as [Hready|Hnot].
  2:{ rewrite chainGet_scan_not_ready by exact Hnot. apply IH, Hrest. }
  assert (Hk : (qm_chatID m, qm_userID m) ≠ k).
  { intros E. apply (Hall m); [left|exact E|exact Hready]. }
  simpl. rewrite decide_True by exact Hready.
  destruct (online r) eqn:Hon.
  - rewrite (queueMetaDel_online _ _ _ Hon).
    set (r1 := {| online := true; h_sess := h_sess r;
                  h_meta := delete (qm_chatID m, qm_userID m) (h_meta r);
                  l_updates := l_updates r |}).
    assert (Hm1 : h_meta r1 !! k = h_meta r !! k)
      by (apply lookup_delete_ne; exact Hk).
    case_decide.
    + destruct (IH r1 Hrest) as [H1 H2]. rewrite H1, H2. split; auto.
    + destruct (queueUpdatesGet_all (qm_chatID m) (qm_userID m) r1 eq_refl)
        as (r2 & Hget & _ & _ & Hm & _ & Hother).
      rewrite Hget. simpl. rewrite Hm. split; [exact Hm1|].
      rewrite Hother by congruence. reflexivity.
  - unfold queueMetaDel. rewrite Hon. simpl. split; reflexivity.
Qed.





Example enqueue_then_early_claim :
  let r := enqueue_all queue_3 100 11
             [(1, msg 1 100 userA "a"); (2, msg 2 100 userA "b")] redis_empty in
  h_meta r !! (100, 11) = Some 5
  ∧ queue_chainGet queue_3 5 r = ((UpdateChain_zero, None), r)
  ∧ fst (queue_chainGet queue_3 6 r)
    = ({| updateType := UpdateTypeMessage;
          updates := [msg 1 100 userA "a"; msg 2 100 userA "b"] |}, None).
Proof. vm_compute. repeat split. Qed.

(** ** The session store *)

Lemma sessGet_online c i r :
  online r = true →
  sessGet c i r =
    (match h_sess r !! (c, i) with
     | None => (data_zero, false, None)
     | Some d => (d, true, None)
     end, r).
Proof.
  intros Hon. unfold sessGet. rewrite Hon.
  destruct (h_sess r !! (c, i)); reflexivity.
Qed.

Lemma sessGet_absent c i r :
  h_sess r !! (c, i) = None →
  sessGet c i r = ((data_zero, false, if online r then None else Some ErrRedis), r).
Proof.
  intros Hno. unfold sessGet. rewrite Hno. destruct (online r); reflexivity.
Qed.

Section SlotProperties.

Variable V : Type.
Variable gobEncode : V → option (list Byte.byte).
Variable gobDecode : list Byte.byte → option V.

(** C7: for a conversation with no session record, SlotSave, SlotGet and
    SlotDel each return an error and leave the store as it was, so none
    of them creates a record; when the store answers, the error is
    "session does not exist". *)
Theorem slot_ops_need_session (s : Session) (slot : string) (v : V)
  (r : redis) :
  h_sess r !! (chatID s, userID s) = None →
  (fst (SlotSave V gobEncode s slot v r) ≠ None
   ∧ snd (SlotSave V gobEncode s slot v r) = r
   ∧ snd (fst (SlotGet V gobDecode s slot r)) ≠ None
   ∧ snd (SlotGet V gobDecode s slot r) = r
   ∧ fst (SlotDel s slot r) ≠ None
   ∧ snd (SlotDel s slot r) = r)
  ∧ (online r = true →
     SlotSave V gobEncode s slot v r
       = (Some (Errorf "session does not exist"), r)
     ∧ SlotGet V gobDecode s slot r
       = ((None, false, Some (Errorf "session does not exist")), r)
     ∧ SlotDel s slot r = (Some (Errorf "session does not exist"), r)).
Proof.
  intros Hno. unfold SlotSave, SlotGet, SlotDel.
  rewrite (sessGet_absent _ _ _ Hno).
  destruct (online r); simpl.
  - split; [repeat split; discriminate | intros _; repeat split].
  - split; [repeat split; discriminate | discriminate].
Qed.

(** C8: with a session record in place, SlotGet after SlotSave of a
    value that gob encodes and decodes back returns that value and
    [true], and SlotGet after SlotDel returns [false], both without an
    error. *)
Theorem slot_round_trip (s : Session) (slot : string) (v : V)
  (buf : list Byte.byte) (d : data) (r : redis) :
  online r = true →
  h_sess r !! (chatID s, userID s) = Some d →
  gobEncode v = Some buf →
  gobDecode buf = Some v →
  (fst (SlotSave V gobEncode s slot v r) = None
   ∧ fst (SlotGet V gobDecode s slot (snd (SlotSave V gobEncode s slot v r)))
     = (Some v, true, None))
  ∧ (fst (SlotDel s slot r) = None
     ∧ fst (SlotGet V gobDecode s slot (snd (SlotDel s slot r)))
       = (None, false, None)).
Proof.
  intros Hon Hd Henc Hdec. unfold SlotSave, SlotGet, SlotDel.
  rewrite (sessGet_online _ _ _ Hon), Hd. simpl.
  rewrite Henc. unfold sessSave. rewrite Hon. simpl.
  split; (split; [reflexivity|]).
  - rewrite sessGet_online by reflexivity. simpl.
    rewrite lookup_insert_eq. simpl. rewrite lookup_insert_eq, Hdec.
    reflexivity.
  - rewrite sessGet_online by reflexivity. simpl.
    rewrite lookup_insert_eq. simpl. rewrite lookup_delete_eq.
    reflexivity.
Qed.

End SlotProperties.

Lemma slot_ops_need_session_witness :
  (fst (SlotSave string gobString session_A "lang" "en" redis_empty) ≠ None
   ∧ snd (SlotSave string gobString session_A "lang" "en" redis_empty)
     = redis_empty
   ∧ snd (fst (SlotGet string ungobString session_A "lang" redis_empty)) ≠ None
   ∧ snd (SlotGet string ungobString session_A "lang" redis_empty) = redis_empty
   ∧ fst (SlotDel session_A "lang" redis_empty) ≠ None
   ∧ snd (SlotDel session_A "lang" redis_empty) = redis_empty)
  ∧ (SlotSave string gobString session_A "lang" "en" redis_empty
       = (Some (Errorf "session does not exist"), redis_empty)
     ∧ SlotGet string ungobString session_A "lang" redis_empty
       = ((None, false, Some (Errorf "session does not exist")), redis_empty)
     ∧ SlotDel session_A "lang" redis_empty
       = (Some (Errorf "session does not exist"), redis_empty)).
Proof.
  destruct (slot_ops_need_session string gobString ungobString session_A
              "lang" "en" redis_empty eq_refl) as [H1 H2].
  split; [exact H1 | apply H2; reflexivity].
Defined.

Lemma slot_round_trip_witness :
  (fst (SlotSave string gobString session_A "city" "Oslo" store_session) = None
   ∧ fst (SlotGet string ungobString session_A "city"
            (snd (SlotSave string gobString session_A "city" "Oslo"
                    store_session)))
     = (Some "Oslo", true, None))
  ∧ (fst (SlotDel session_A "city" store_session) = None
     ∧ fst (SlotGet string ungobString session_A "city"
              (snd (SlotDel session_A "city" store_session)))
       = (None, false, None)).
Proof.
  apply (slot_round_trip string gobString ungobString session_A "city" "Oslo"
           (list_byte_of_string "Oslo")
           {| data_State := "user:menu";
              data_Slots := {[ "lang" := list_byte_of_string "en" ]} |}
           store_session);
    vm_compute; reflexivity.
Defined.

Example slot_del_existing_slot :
  fst (SlotGet string ungobString session_A "lang" store_session)
    = (Some "en", true, None)
  ∧ fst (SlotGet string ungobString session_A "lang"
           (snd (SlotDel session_A "lang" store_session)))
    = (None, false, None).
Proof. vm_compute. split; reflexivity. Qed.

(** C9: stateSet, on a store that answers, writes a record with the given
    state and no slots when the conversation has none, and otherwise
    writes back the record it read with only the state replaced; the
    records of other conversations are not touched. *)
Theorem stateSet_creates_or_updates (s : Session) (st : SessionState)
  (r : redis) :
  online r = true →
  stateSet s st r =
    (None,
     {| online := true;
        h_sess :=
          <[(chatID s, userID s) :=
              {| data_State := state st;
                 data_Slots :=
                   match h_sess r !! (chatID s, userID s) with
                   | None => ∅
                   | Some d => data_Slots d
                   end |}]> (h_sess r);
        h_meta := h_meta r;
        l_updates := l_updates r |}).
Proof.
  intros Hon. unfold stateSet.
  rewrite (sessGet_online _ _ _ Hon).
  destruct (h_sess r !! (chatID s, userID s)) as [d|];
    simpl; unfold sessSave; rewrite Hon; reflexivity.
Qed.

Lemma stateSet_creates_or_updates_witness :
  stateSet session_A (SessState "menu") redis_empty =
    (None,
     {| online := true;
        h_sess :=
          <[(chatID session_A, userID session_A) :=
              {| data_State := state (SessState "menu");
                 data_Slots :=
                   match h_sess redis_empty
                           !! (chatID session_A, userID session_A) with
                   | None => ∅
                   | Some d => data_Slots d
                   end |}]> (h_sess redis_empty);
        h_meta := h_meta redis_empty;
        l_updates := l_updates redis_empty |}).
Proof.
  apply (stateSet_creates_or_updates session_A (SessState "menu") redis_empty).
  reflexivity.
Defined.

Example stateSet_keeps_slots :
  h_sess (snd (stateSet session_A (SessState "ask") store_session)) !! (100, 11)
  = Some {| data_State := "user:ask";
            data_Slots := {[ "lang" := list_byte_of_string "en" ]} |}.
Proof. vm_compute. reflexivity. Qed.

Example stateSet_starts_session :
  h_sess (snd (stateSet session_A (SessState "ask") redis_empty)) !! (100, 11)
  = Some {| data_State := "user:ask"; data_Slots := ∅ |}.
Proof. vm_compute. reflexivity. Qed.

(** ** The state switch *)

Lemma stateSwitch_break fuel t s mid w :
  stateSwitch (S fuel) t s sessionBreak mid w = Some (None, w).
Proof. reflexivity. Qed.

Lemma stateSwitch_destroy fuel t s mid w :
  stateSwitch (S fuel) t s sessionDestroy mid w = Some (destroy s w).
Proof. reflexivity. Qed.

(** Below the two reserved states stateSwitch is the lookup and what
    follows it. *)
Lemma stateSwitch_other fuel t s ns mid w :
  ns ≠ sessionBreak →
  ns ≠ sessionDestroy →
  stateSwitch (S fuel) t s ns mid w =
    stateSwitch_enter (stateSwitch fuel t s) t s ns mid w.
Proof.
  intros Hb Hd. simpl.
  rewrite decide_False by exact Hb. rewrite decide_False by exact Hd.
  reflexivity.
Qed.

(** destroy removes the record, the meta and the list of the session. *)
Lemma destroy_online s w :
  online (store w) = true →
  destroy s w =
    (None,
     {| store :=
          {| online := true;
             h_sess := delete (chatID s, userID s) (h_sess (store w));
             h_meta := delete (chatID s, userID s) (h_meta (store w));
             l_updates := delete (chatID s, userID s) (l_updates (store w)) |};
        wire := wire w |}).
Proof.
  intros Hon. unfold destroy, on_store, sessDel. rewrite Hon.
  reflexivity.
Qed.

Section DispatcherProperties.

Variable jsonUnmarshal : string → option callbackData.

(** C4: stateSwitch answers the two reserved states before it looks the
    state up: the break state returns [nil] and changes nothing, the
    destroy state returns what destroy returns (on a store that answers,
    the record of the session is gone), and any other state without an
    entry in [States] returns ErrDescriptionStateMissing; the same holds
    for the state that stateCallbackProcessing decodes from the callback
    data, where the call of stateSwitch for a reserved state comes once
    MessagesIDGet has read the message ID of the chain. *)
Theorem stateSwitch_reserved_states_first (fuel : nat) (t : Telegram)
  (s : Session) (mid : Z) (w : World) :
  stateSwitch (S fuel) t s sessionBreak mid w = Some (None, w)
  ∧ stateSwitch (S fuel) t s sessionDestroy mid w = Some (destroy s w)
  ∧ (online (store w) = true →
     fst (destroy s w) = None
     ∧ h_sess (store (snd (destroy s w))) !! (chatID s, userID s) = None)
  ∧ (∀ ns, ns ≠ sessionBreak → ns ≠ sessionDestroy →
           States (description t) !! ns = None →
           stateSwitch (S fuel) t s ns mid w
           = Some (Some ErrDescriptionStateMissing, w))
  ∧ (∀ cbs identifier,
       callbackSessionStateGet jsonUnmarshal (updateChain s)
       = Some (cbs, identifier, None) →
       (cbs = sessionBreak →
          stateCallbackProcessing jsonUnmarshal (S fuel) t s w
          = (_ ← MessagesIDGet (updateChain s); Some (None, w)))
       ∧ (cbs = sessionDestroy →
          stateCallbackProcessing jsonUnmarshal (S fuel) t s w
          = (_ ← MessagesIDGet (updateChain s); Some (destroy s w)))
       ∧ (cbs ≠ sessionBreak → cbs ≠ sessionDestroy →
          States (description t) !! cbs = None →
          stateCallbackProcessing jsonUnmarshal (S fuel) t s w
          = Some (Some ErrDescriptionStateMissing, w))).
Proof.
  split; [reflexivity|]. split; [reflexivity|]. split; [|split].
  - intros Hon. rewrite (destroy_online _ _ Hon). simpl.
    split; [reflexivity | apply lookup_delete_eq].
  - intros ns Hb Hd Hno. rewrite stateSwitch_other by assumption.
    unfold stateSwitch_enter. rewrite Hno. reflexivity.
  - intros cbs identifier Hget. unfold stateCallbackProcessing.
    rewrite Hget. split; [|split].
    + intros ->. rewrite decide_True by (left; reflexivity).
      destruct (MessagesIDGet (updateChain s)); reflexivity.
    + intros ->. rewrite decide_True by (right; reflexivity).
      destruct (MessagesIDGet (updateChain s)); reflexivity.
    + intros Hb Hd Hno.
      rewrite decide_False by (intros [?|?]; contradiction).
      rewrite Hno. reflexivity.
Qed.

End DispatcherProperties.

(** C5, as stated, fails: the state [broken] declares a MessageHandler,
    its state handler fails and the ErrorHandler of the description names
    the state [two]; stateSwitch to [broken] does not stop there: it goes
    on into [two], sends the message of [two] and leaves the session in
    [two]. *)
Lemma stateSwitch_error_leaves_waiting_state :
  States (description telegram_recover) !! SessState "broken"
    = Some state_broken
  ∧ MessageHandler state_broken = Some onMessage_ask
  ∧ ∃ w',
      stateSwitch 3 telegram_recover session_A (SessState "broken") 0
        world_session = Some (None, w')
      ∧ wire w' = [NewMessage 100 "two" []]
      ∧ fst (StateGet session_A (store w')) = (SessState "two", true, None).
Proof.
  split; [reflexivity|]. split; [reflexivity|].
  eexists. split; [vm_compute; reflexivity|]. split; vm_compute; reflexivity.
Qed.

(** C5 (amended): when the state has a MessageHandler, stateSwitch returns
    once the state is stored, the state handler (if any) has returned its
    result and the message of that result (if any) is sent: with any fuel,
    the result is that of the sending step, in which the NextState of the
    handler plays no part.  When the state handler returns an error
    instead, stateSwitch returns that error if the description has no
    ErrorHandler, and otherwise it returns the error of the ErrorHandler
    or goes on, with message ID 0, into the state the ErrorHandler
    returns. *)
Theorem stateSwitch_waits_for_message (fuel : nat) (t : Telegram)
  (s : Session) (ns : SessionState) (mid : Z) (w w1 : World) (st : State)
  (onMessage : Session → World → (error + SessionState) * World) :
  ns ≠ sessionBreak →
  ns ≠ sessionDestroy →
  States (description t) !! ns = Some st →
  MessageHandler st = Some onMessage →
  on_store (stateSet s ns) w = (None, w1) →
  (StateHandler st = None →
     stateSwitch (S fuel) t s ns mid w = Some (None, w1))
  ∧ (∀ handler hr w2,
       StateHandler st = Some handler →
       handler s w1 = (inr hr, w2) →
       stateSwitch (S fuel) t s ns mid w
       = Some (deliver t s st ns (SHR_Message hr) (SHR_Buttons hr)
                 (if StickMessage hr then mid else 0) w2))
  ∧ (∀ handler err w2,
       StateHandler st = Some handler →
       handler s w1 = (inl err, w2) →
       (ErrorHandler (description t) = None →
          stateSwitch (S fuel) t s ns mid w = Some (Some err, w2))
       ∧ (∀ onError res w3,
            ErrorHandler (description t) = Some onError →
            onError s err w2 = (res, w3) →
            stateSwitch (S fuel) t s ns mid w =
              match res with
              | inl err' => Some (Some err', w3)
              | inr next => stateSwitch fuel t s next 0 w3
              end)).
Proof.
  intros Hb Hd Hst Hmh Hset.
  rewrite stateSwitch_other by assumption.
  unfold stateSwitch_enter. rewrite Hst, Hset. split; [|split].
  - intros ->. reflexivity.
  - intros handler hr w2 -> ->.
    destruct (deliver t s st ns (SHR_Message hr) (SHR_Buttons hr)
                (if StickMessage hr then mid else 0) w2) as [[err|] w3].
    + reflexivity.
    + rewrite Hmh. reflexivity.
  - intros handler err w2 -> ->. split.
    + intros ->. reflexivity.
    + intros onError res w3 -> ->. destruct res; reflexivity.
Qed.

(** One step of the automatic advance. *)
Lemma stateSwitch_advance fuel t s ns mid w w1 w2 w3 st handler hr :
  ns ≠ sessionBreak →
  ns ≠ sessionDestroy →
  States (description t) !! ns = Some st →
  MessageHandler st = None →
  on_store (stateSet s ns) w = (None, w1) →
  StateHandler st = Some handler →
  handler s w1 = (inr hr, w2) →
  deliver t s st ns (SHR_Message hr) (SHR_Buttons hr)
    (if StickMessage hr then mid else 0) w2 = (None, w3) →
  stateSwitch (S fuel) t s ns mid w =
    stateSwitch fuel t s (NextState hr) (if StickMessage hr then mid else 0) w3.
Proof.
  intros Hb Hd Hst Hmh Hset Hh Hrun Hsend.
  rewrite stateSwitch_other by assumption.
  unfold stateSwitch_enter. rewrite Hst, Hset, Hh, Hrun, Hsend, Hmh.
  reflexivity.
Qed.

(** A run of stick states is what stateSwitch does, given fuel for each
    state of the run and for the break state that ends it. *)
Lemma stateSwitch_stick_run t s mid chain w w' :
  stick_run t s mid chain w w' →
  ∀ extra : nat,
    stateSwitch (S (length chain + extra)) t s (hd sessionBreak chain) mid w
    = Some (None, w').
Proof.
  induction 1 as [w | ns rest st handler hr w w1 w2 w3 w'
                      Hb Hd Hst Hmh Hset Hh Hrun Hstick Hsend Hnext _ IH];
    intros extra.
  - reflexivity.
  - simpl hd. simpl length.
    rewrite (stateSwitch_advance _ t s ns mid w w1 w2 w3 st handler hr);
      try assumption.
    + rewrite Hstick, Hnext. apply IH.
    + rewrite Hstick. exact Hsend.
Qed.

(** With a message ID, SendMessage asks for an edit of that message;
    without one, for a new message. *)
Lemma SendMessage_request t chat mid text w :
  let m := {| SMD_Message := text; SMD_Buttons := [];
              SMD_ButtonState := sessionBreak |} in
  (mid ≠ 0 →
     SendMessage t chat mid m w =
       let '((mr, err), w1) :=
         Send (bot t) (NewEditMessageText chat mid text []) w in
       (([mr], err), w1))
  ∧ SendMessage t chat 0 m w =
      let '((mr, err), w1) := Send (bot t) (NewMessage chat text []) w in
      (([mr], err), w1).
Proof.
  cbv zeta. unfold SendMessage. simpl. split; [|reflexivity].
  intros Hmid. rewrite decide_False by exact Hmid. reflexivity.
Qed.

(** C6 (amended): when stateSwitch advances on its own, the recursive call
    gets the NextState of the state handler and the message ID the message
    was sent with, which is the message ID stateSwitch was called with when
    the handler asked for a stick message and 0 otherwise; so a run of
    stick states sends every message with the message ID of the first
    call, and a handler that returns the break state ends the switch with
    the world as the sending step left it. *)
Theorem stateSwitch_advance_keeps_stick_id (fuel : nat) (t : Telegram)
  (s : Session) (ns : SessionState) (mid : Z) (w w1 w2 w3 : World)
  (st : State) (handler : Session → World → (error + StateHandlerRes) * World)
  (hr : StateHandlerRes) :
  ns ≠ sessionBreak →
  ns ≠ sessionDestroy →
  States (description t) !! ns = Some st →
  MessageHandler st = None →
  on_store (stateSet s ns) w = (None, w1) →
  StateHandler st = Some handler →
  handler s w1 = (inr hr, w2) →
  deliver t s st ns (SHR_Message hr) (SHR_Buttons hr)
    (if StickMessage hr then mid else 0) w2 = (None, w3) →
  stateSwitch (S fuel) t s ns mid w
    = stateSwitch fuel t s (NextState hr)
        (if StickMessage hr then mid else 0) w3
  ∧ (NextState hr = sessionBreak →
     stateSwitch (S (S fuel)) t s ns mid w = Some (None, w3))
  ∧ (∀ chain w', StickMessage hr = true →
       NextState hr = hd sessionBreak chain →
       stick_run t s mid chain w3 w' →
       stick_run t s mid (ns :: chain) w w'
       ∧ stateSwitch (S (S (length chain + fuel))) t s ns mid w
         = Some (None, w')).
Proof.
  intros Hb Hd Hst Hmh Hset Hh Hrun Hsend.
  split; [|split].
  - apply (stateSwitch_advance fuel t s ns mid w w1 w2 w3 st handler hr);
      assumption.
  - intros Hbreak.
    rewrite (stateSwitch_advance (S fuel) t s ns mid w w1 w2 w3 st handler hr)
      by assumption.
    rewrite Hbreak. reflexivity.
  - intros chain w' Hstick Hnext Hchain.
    assert (Hfull : stick_run t s mid (ns :: chain) w w').
    { apply (stick_run_step t s mid ns chain st handler hr w w1 w2 w3 w');
        try assumption.
      rewrite Hstick in Hsend. exact Hsend. }
    split; [exact Hfull|].
    exact (stateSwitch_stick_run t s mid (ns :: chain) w w' Hfull fuel).
Qed.

(** C10: the state that SessState makes is the name with [user:] in front,
    so it is neither the break state nor the destroy state, and stateSwitch
    takes it to the lookup in [States]. *)
Theorem SessState_not_reserved (stateName : string) :
  state (SessState stateName) = "user:" +:+ stateName
  ∧ SessState stateName ≠ sessionBreak
  ∧ SessState stateName ≠ sessionDestroy
  ∧ ∀ fuel t s mid w,
      stateSwitch (S fuel) t s (SessState stateName) mid w
      = stateSwitch_enter (stateSwitch fuel t s) t s (SessState stateName)
          mid w.
Proof.
  assert (Hb : SessState stateName ≠ sessionBreak) by discriminate.
  assert (Hd : SessState stateName ≠ sessionDestroy) by discriminate.
  split; [reflexivity|]. split; [exact Hb|]. split; [exact Hd|].
  intros fuel t s mid w. apply stateSwitch_other; assumption.
Qed.

Lemma stateSwitch_reserved_states_first_witness :
  stateSwitch 1 telegram_sample session_A sessionBreak 0 world_session
    = Some (None, world_session)
  ∧ stateSwitch 1 telegram_sample session_A sessionDestroy 0 world_session
    = Some (destroy session_A world_session)
  ∧ (fst (destroy session_A world_session) = None
     ∧ h_sess (store (snd (destroy session_A world_session)))
         !! (chatID session_A, userID session_A) = None)
  ∧ stateSwitch 1 telegram_sample session_A (SessState "nowhere") 0
      world_session
    = Some (Some ErrDescriptionStateMissing, world_session)
  ∧ stateCallbackProcessing jsonSample 1 telegram_sample
      (session_callback "internal:destroy") world_session
    = Some (destroy (session_callback "internal:destroy") world_session)
  ∧ stateCallbackProcessing jsonSample 1 telegram_sample
      (session_callback "user:nowhere") world_session
    = Some (Some ErrDescriptionStateMissing, world_session).
Proof.
  destruct (stateSwitch_reserved_states_first jsonSample 0 telegram_sample
              session_A 0 world_session) as (H1 & H2 & H3 & H4 & _).
  destruct (stateSwitch_reserved_states_first jsonSample 0 telegram_sample
              (session_callback "internal:destroy") 0 world_session)
    as (_ & _ & _ & _ & H5).
  destruct (stateSwitch_reserved_states_first jsonSample 0 telegram_sample
              (session_callback "user:nowhere") 0 world_session)
    as (_ & _ & _ & _ & H6).
  split; [exact H1|]. split; [exact H2|]. split; [apply H3; reflexivity|].
  split; [apply H4; [discriminate | discriminate | vm_compute; reflexivity]|].
  split.
  - apply (H5 sessionDestroy ""); reflexivity.
  - apply (H6 (SessState "nowhere") "");
      [reflexivity | discriminate | discriminate | vm_compute; reflexivity].
Defined.

Example destroy_clears_conversation :
  snd (destroy session_A
         {| store := {| online := true; h_sess := h_sess store_session;
                        h_meta := h_meta store_ready;
                        l_updates := l_updates store_ready |};
            wire := [] |})
  = {| store := redis_empty; wire := [] |}.
Proof. vm_compute. reflexivity. Qed.

Lemma stateSwitch_waits_for_message_witness :
  stateSwitch 5 telegram_sample session_A (SessState "ask") 0 world_session
  = Some (deliver telegram_sample session_A state_ask (SessState "ask")
            "name?" [] 0 (world_in session_A (SessState "ask") world_session))
  ∧ stateSwitch 5 telegram_sample session_A (SessState "wait") 0 world_session
    = Some (None, world_in session_A (SessState "wait") world_session)
  ∧ stateSwitch 3 telegram_recover session_A (SessState "broken") 0
      world_session
    = stateSwitch 2 telegram_recover session_A (SessState "two") 0
        (world_in session_A (SessState "broken") world_session).
Proof.
  split; [|split].
  - refine (proj1 (proj2 (stateSwitch_waits_for_message 4 telegram_sample session_A
                     (SessState "ask") 0 world_session
                     (world_in session_A (SessState "ask") world_session)
                     state_ask onMessage_ask _ _ _ _ _))
              (handler_of "name?" (SessState "two") false)
              (result_of "name?" (SessState "two") false)
              (world_in session_A (SessState "ask") world_session) _ _);
      sample_fact.
  - refine (proj1 (stateSwitch_waits_for_message 4 telegram_sample session_A
                     (SessState "wait") 0 world_session
                     (world_in session_A (SessState "wait") world_session)
                     state_wait onMessage_ask _ _ _ _ _) _);
      sample_fact.
  - refine (proj2 (proj2 (proj2 (stateSwitch_waits_for_message 2
                     telegram_recover session_A (SessState "broken") 0
                     world_session
                     (world_in session_A (SessState "broken") world_session)
                     state_broken onMessage_ask _ _ _ _ _))
              (λ _ w, (inl (ErrUser "no data"), w)) (ErrUser "no data")
              (world_in session_A (SessState "broken") world_session) _ _)
              onError_sample (inr (SessState "two"))
              (world_in session_A (SessState "broken") world_session) _ _);
      sample_fact.
Defined.

Example ask_sends_and_waits :
  stateSwitch 5 telegram_sample session_A (SessState "ask") 0 world_session
  = Some (None,
          {| store :=
               {| online := true;
                  h_sess := {[ (100, 11) :=
                    {| data_State := "user:ask";
                       data_Slots := {[ "lang" := list_byte_of_string "en" ]} |} ]};
                  h_meta := ∅; l_updates := ∅ |};
             wire := [NewMessage 100 "name?" []] |}).
Proof. vm_compute. reflexivity. Qed.

Lemma stick_run_s2 :
  stick_run telegram_sample (session_callback "user:s1") 77 [SessState "s2"]
    world_s1_sent world_s2_sent.
Proof.
  apply (stick_run_step telegram_sample (session_callback "user:s1") 77
           (SessState "s2") [] (state_auto "second" sessionBreak true)
           (handler_of "second" sessionBreak true)
           (result_of "second" sessionBreak true)
           world_s1_sent world_s2_in world_s2_in world_s2_sent world_s2_sent);
    try sample_fact.
  apply stick_run_end.
Qed.

Lemma stateSwitch_advance_keeps_stick_id_witness :
  stateSwitch 3 telegram_sample (session_callback "user:s1") (SessState "s1")
    77 world_session
  = stateSwitch 2 telegram_sample (session_callback "user:s1")
      (SessState "s2") 77 world_s1_sent
  ∧ stateSwitch 2 telegram_sample (session_callback "user:s1")
      (SessState "s2") 77 world_s1_sent
    = Some (None, world_s2_sent)
  ∧ stick_run telegram_sample (session_callback "user:s1") 77
      [SessState "s1"; SessState "s2"] world_session world_s2_sent
  ∧ stateSwitch 5 telegram_sample (session_callback "user:s1")
      (SessState "s1") 77 world_session
    = Some (None, world_s2_sent).
Proof.
  destruct (stateSwitch_advance_keeps_stick_id 2 telegram_sample
              (session_callback "user:s1") (SessState "s1") 77
              world_session world_s1_in world_s1_in world_s1_sent
              (state_auto "first" (SessState "s2") true)
              (handler_of "first" (SessState "s2") true)
              (result_of "first" (SessState "s2") true))
    as (H1 & _ & H3); try sample_fact.
  destruct (stateSwitch_advance_keeps_stick_id 0 telegram_sample
              (session_callback "user:s1") (SessState "s2") 77
              world_s1_sent world_s2_in world_s2_in world_s2_sent
              (state_auto "second" sessionBreak true)
              (handler_of "second" sessionBreak true)
              (result_of "second" sessionBreak true))
    as (_ & H2 & _); try sample_fact.
  split; [exact H1|]. split; [apply H2; reflexivity|].
  apply (H3 [SessState "s2"] world_s2_sent);
    [reflexivity | reflexivity | exact stick_run_s2].
Defined.

Example stick_states_edit_one_message :
  wire world_s2_sent
  = [NewEditMessageText 100 77 "first" [];
     NewEditMessageText 100 77 "second" []].
Proof. vm_compute. reflexivity. Qed.

(** C6, as stated, fails: the state [one] does not ask for a stick message,
    its message is sent as a new message, which the bot API numbers 501,
    and the recursive call for [two] gets the message ID 0, not 501; [two]
    asks for a stick message and, with 0, sends a second new message where
    501 would have edited the first. *)
Lemma stateSwitch_advance_drops_sent_id :
  let t := telegram_sample in
  let s := session_callback "user:one" in
  SendMessage t (chatID s) 0
    {| SMD_Message := "one"; SMD_Buttons := [];
       SMD_ButtonState := SessState "one" |} world_one_in
  = (([{| MessageID := 501; From := Some botUser;
          Chat := Some {| Chat_ID := 100 |}; Text := "one" |}], None),
     world_one_sent)
  ∧ stateSwitch 3 t s (SessState "one") 77 world_session
    = stateSwitch 2 t s (SessState "two") 0 world_one_sent
  ∧ stateSwitch 2 t s (SessState "two") 0 world_one_sent
    ≠ stateSwitch 2 t s (SessState "two") 501 world_one_sent
  ∧ option_map (λ x, wire (snd x))
      (stateSwitch 3 t s (SessState "one") 77 world_session)
    = Some [NewMessage 100 "one" []; NewMessage 100 "two" []]
  ∧ option_map (λ x, wire (snd x))
      (stateSwitch 2 t s (SessState "two") 501 world_one_sent)
    = Some [NewMessage 100 "one" []; NewEditMessageText 100 501 "two" []].
Proof.
  cbv zeta. split; [vm_compute; reflexivity|].
  split; [vm_compute; reflexivity|].
  split; [|split; vm_compute; reflexivity].
  intros H.
  apply (f_equal (option_map (λ x, wire (snd x)))) in H.
  vm_compute in H. discriminate H.
Qed.

(** * Further properties *)

(** ** The store *)

(** X1: on a store that answers, sessGet after sessSave returns the record
    that was saved, with [true] and no error, and sessSave touches neither
    the records of other conversations nor the queues. *)
Theorem sessSave_sessGet (c i : Z) (d : data) (r : redis) :
  online r = true →
  fst (sessSave c i d r) = None
  ∧ fst (sessGet c i (snd (sessSave c i d r))) = (d, true, None)
  ∧ (∀ k, k ≠ (c, i) →
       h_sess (snd (sessSave c i d r)) !! k = h_sess r !! k)
  ∧ h_meta (snd (sessSave c i d r)) = h_meta r
  ∧ l_updates (snd (sessSave c i d r)) = l_updates r.
Proof.
  intros Hon. unfold sessSave. rewrite Hon. simpl.
  split; [reflexivity|]. split.
  - rewrite sessGet_online by reflexivity. simpl.
    rewrite lookup_insert_eq. reflexivity.
  - split; [|split; reflexivity].
    intros k Hk. apply lookup_insert_ne. congruence.
Qed.

Lemma sessSave_sessGet_witness :
  fst (sessSave 100 11 data_zero redis_empty) = None
  ∧ fst (sessGet 100 11 (snd (sessSave 100 11 data_zero redis_empty)))
    = (data_zero, true, None)
  ∧ (∀ k, k ≠ (100, 11) →
       h_sess (snd (sessSave 100 11 data_zero redis_empty)) !! k
       = h_sess redis_empty !! k)
  ∧ h_meta (snd (sessSave 100 11 data_zero redis_empty)) = h_meta redis_empty
  ∧ l_updates (snd (sessSave 100 11 data_zero redis_empty))
    = l_updates redis_empty.
Proof. apply (sessSave_sessGet 100 11 data_zero redis_empty). reflexivity. Defined.

(** X2: on a store that answers, sessDel returns no error, whether or not
    the conversation had a session; afterwards the conversation has no
    session record (sessGet reports [false] without an error), no meta and
    no buffered updates, and every other conversation is as before. *)
Theorem sessDel_clears_conversation (c i : Z) (r : redis) :
  online r = true →
  fst (sessDel c i r) = None
  ∧ fst (sessGet c i (snd (sessDel c i r))) = (data_zero, false, None)
  ∧ h_meta (snd (sessDel c i r)) !! (c, i) = None
  ∧ queueBuffer (snd (sessDel c i r)) (c, i) = []
  ∧ (∀ k, k ≠ (c, i) →
       h_sess (snd (sessDel c i r)) !! k = h_sess r !! k
       ∧ h_meta (snd (sessDel c i r)) !! k = h_meta r !! k
       ∧ l_updates (snd (sessDel c i r)) !! k = l_updates r !! k).
Proof.
  intros Hon. unfold sessDel, queueMetaDel, queueUpdateDel. rewrite Hon.
  simpl. split; [reflexivity|]. split; [|split; [|split]].
  - rewrite sessGet_online by reflexivity. simpl.
    rewrite lookup_delete_eq. reflexivity.
  - apply lookup_delete_eq.
  - unfold queueBuffer. simpl. rewrite lookup_delete_eq. reflexivity.
  - intros k Hk.
    rewrite !lookup_delete_ne by congruence. repeat split.
Qed.

Lemma sessDel_clears_conversation_witness :
  fst (sessDel 100 11 store_session) = None
  ∧ fst (sessGet 100 11 (snd (sessDel 100 11 store_session)))
    = (data_zero, false, None)
  ∧ h_meta (snd (sessDel 100 11 store_session)) !! (100, 11) = None
  ∧ queueBuffer (snd (sessDel 100 11 store_session)) (100, 11) = []
  ∧ (∀ k, k ≠ (100, 11) →
       h_sess (snd (sessDel 100 11 store_session)) !! k
       = h_sess store_session !! k
       ∧ h_meta (snd (sessDel 100 11 store_session)) !! k
         = h_meta store_session !! k
       ∧ l_updates (snd (sessDel 100 11 store_session)) !! k
         = l_updates store_session !! k).
Proof. apply (sessDel_clears_conversation 100 11 store_session). reflexivity. Defined.

Lemma push_all_online c i : ∀ us r,
  online r = true →
  online (push_all c i us r) = true
  ∧ queueBuffer (push_all c i us r) (c, i) = queueBuffer r (c, i) ++ us
  ∧ h_sess (push_all c i us r) = h_sess r
  ∧ h_meta (push_all c i us r) = h_meta r
  ∧ ∀ k, k ≠ (c, i) → l_updates (push_all c i us r) !! k = l_updates r !! k.
Proof.
  unfold push_all.
  induction us as [|u us IH]; intros r Hon.
  - simpl. rewrite app_nil_r. repeat split; auto.
  - simpl fold_left. unfold queueUpdateAdd at 2 4 6 8 10. rewrite Hon. simpl.
    match goal with
    | |- context [fold_left _ us ?r1] =>
        destruct (IH r1 eq_refl) as (H1 & H2 & H3 & H4 & H5)
    end.
    rewrite H1, H2, H3, H4. split; [reflexivity|]. split.
    + unfold queueBuffer at 1. simpl. rewrite lookup_insert_eq. simpl.
      rewrite <- app_assoc. reflexivity.
    + split; [reflexivity|]. split; [reflexivity|].
      intros k Hk. rewrite (H5 k Hk). simpl.
      apply lookup_insert_ne. congruence.
Qed.

(** X3: the list of a conversation is a FIFO that is read once: on a store
    that answers, queueUpdatesGet after a run of queueUpdateAdd returns
    what was buffered before followed by the added updates in the order
    they were added, with no error, and a second queueUpdatesGet returns
    nothing. *)
Theorem queueUpdates_fifo (c i : Z) (us : list Update) (r : redis) :
  online r = true →
  fst (queueUpdatesGet c i (push_all c i us r))
    = (queueBuffer r (c, i) ++ us, None)
  ∧ fst (queueUpdatesGet c i (snd (queueUpdatesGet c i (push_all c i us r))))
    = ([], None).
Proof.
  intros Hon.
  destruct (push_all_online c i us r Hon) as (Hon1 & Hb & _).
  destruct (queueUpdatesGet_all c i (push_all c i us r) Hon1)
    as (r2 & Hget & Hon2 & _ & _ & Hempty & _).
  rewrite Hget. simpl. rewrite Hb. split; [reflexivity|].
  destruct (queueUpdatesGet_all c i r2 Hon2) as (r3 & Hget2 & _).
  rewrite Hget2. simpl. rewrite Hempty. reflexivity.
Qed.

Lemma queueUpdates_fifo_witness :
  fst (queueUpdatesGet 100 11
         (push_all 100 11 [msg 3 100 userA "c"; callback 4 100 userA "x"]
            store_ready))
    = (queueBuffer store_ready (100, 11)
       ++ [msg 3 100 userA "c"; callback 4 100 userA "x"], None)
  ∧ fst (queueUpdatesGet 100 11
           (snd (queueUpdatesGet 100 11
                   (push_all 100 11
                      [msg 3 100 userA "c"; callback 4 100 userA "x"]
                      store_ready))))
    = ([], None).
Proof.
  apply (queueUpdates_fifo 100 11
           [msg 3 100 userA "c"; callback 4 100 userA "x"] store_ready).
  reflexivity.
Defined.

(** X4: on a store that answers, queueMetasGet returns one entry for each
    conversation that has a meta and no other: an entry is in the result
    exactly when the hash holds its time under its chat and user, and no
    two entries have the same chat and user. *)
Theorem queueMetasGet_entries (r : redis) :
  online r = true →
  snd (fst (queueMetasGet r)) = None
  ∧ snd (queueMetasGet r) = r
  ∧ (∀ m, m ∈ fst (fst (queueMetasGet r))
          ↔ h_meta r !! (qm_chatID m, qm_userID m) = Some (waitTill m))
  ∧ NoDup ((λ m, (qm_chatID m, qm_userID m)) <$> fst (fst (queueMetasGet r))).
Proof.
  intros Hon. unfold queueMetasGet. rewrite Hon. simpl.
  split; [reflexivity|]. split; [reflexivity|]. split.
  - intros m. rewrite list_elem_of_fmap. split.
    + intros ([[c i] w] & -> & Hin). simpl.
      apply elem_of_map_to_list. exact Hin.
    + intros Hm. exists ((qm_chatID m, qm_userID m), waitTill m).
      split; [destruct m; reflexivity|].
      apply elem_of_map_to_list. exact Hm.
  - rewrite <- list_fmap_compose.
    assert (E : ((λ m, (qm_chatID m, qm_userID m))
                 ∘ (λ e : Z * Z * Z,
                      {| qm_chatID := fst (fst e); qm_userID := snd (fst e);
                         waitTill := snd e |}))
                <$> map_to_list (h_meta r)
                = fst <$> map_to_list (h_meta r)).
    { apply list_fmap_ext. intros _ [[c i] w] _. reflexivity. }
    rewrite E. apply NoDup_fst_map_to_list.
Qed.

Lemma queueMetasGet_entries_witness :
  snd (fst (queueMetasGet store_ready)) = None
  ∧ snd (queueMetasGet store_ready) = store_ready
  ∧ (∀ m, m ∈ fst (fst (queueMetasGet store_ready))
          ↔ h_meta store_ready !! (qm_chatID m, qm_userID m)
            = Some (waitTill m))
  ∧ NoDup ((λ m, (qm_chatID m, qm_userID m))
           <$> fst (fst (queueMetasGet store_ready))).
Proof. apply (queueMetasGet_entries store_ready). reflexivity. Defined.

(** ** The queue, further *)

(** A scan that meets an entry that is ready and still has its meta
    claims one: the first such entry of the list it goes through. *)
Lemma chainGet_scan_claims now : ∀ qm r,
  online r = true →
  (∃ m, m ∈ qm ∧ waitTill m < now
        ∧ is_Some (h_meta r !! (qm_chatID m, qm_userID m))) →
  ∃ m r2,
    m ∈ qm ∧ waitTill m < now
    ∧ is_Some (h_meta r !! (qm_chatID m, qm_userID m))
    ∧ chainGet_scan now qm r =
        ((UpdateChain_add UpdateChain_zero
            (queueBuffer r (qm_chatID m, qm_userID m)), None), r2)
    ∧ online r2 = true
    ∧ h_sess r2 = h_sess r
    ∧ h_meta r2 = delete (qm_chatID m, qm_userID m) (h_meta r)
    ∧ queueBuffer r2 (qm_chatID m, qm_userID m) = []
    ∧ ∀ k', k' ≠ (qm_chatID m, qm_userID m) →
            l_updates r2 !! k' = l_updates r !! k'.
Proof.
  induction qm as [|m0 qm IH]; intros r Hon (m & Hin & Hready & Hmeta).
  - apply elem_of_nil in Hin. contradiction.
  - destruct (decide (waitTill m0 < now)) as [Hr0|Hn0].
    + destruct (h_meta r !! (qm_chatID m0, qm_userID m0)) as [w0|] eqn:E0.
      * destruct (chainGet_scan_won now m0 qm r Hon Hr0)
          as (r2 & Hrun & Hon2 & Hs & Hm & Hb & Hother);
          [rewrite E0; eauto|].
        exists m0, r2. rewrite E0. repeat split; eauto. left.
      * rewrite (chainGet_scan_lost now m0 qm r Hon Hr0 E0).
        apply elem_of_cons in Hin as [->|Hin].
        { rewrite E0 in Hmeta. destruct Hmeta; discriminate. }
        destruct (IH r Hon) as (m' & r2 & Hin' & Hrest); [eauto|].
        exists m', r2. split; [right; exact Hin'|exact Hrest].
    + rewrite (chainGet_scan_not_ready now m0 qm r Hn0).
      apply elem_of_cons in Hin as [->|Hin]; [contradiction|].
      destruct (IH r Hon) as (m' & r2 & Hin' & Hrest); [eauto|].
      exists m', r2. split; [right; exact Hin'|exact Hrest].
Qed.

(** X5: on a store that answers, chainGet claims at most one conversation
    in a call and only one whose protected interval has passed.  When no
    meta is older than the clock it returns the empty chain and the store
    is unchanged.  When some meta is older than the clock it claims one
    such conversation: it returns the chain built from all of its buffered
    updates, deletes its meta and its list, and leaves the sessions and
    the lists of every other conversation as they were. *)
Theorem chainGet_claims_one_ready (q : queue) (now : Z) (r : redis) :
  online r = true →
  ((∀ k w, h_meta r !! k = Some w → ¬ w < now) →
     queue_chainGet q now r = ((UpdateChain_zero, None), r))
  ∧ ((∃ k w, h_meta r !! k = Some w ∧ w < now) →
     ∃ k w r2,
       h_meta r !! k = Some w ∧ w < now
       ∧ queue_chainGet q now r =
           ((UpdateChain_add UpdateChain_zero (queueBuffer r k), None), r2)
       ∧ h_sess r2 = h_sess r
       ∧ h_meta r2 = delete k (h_meta r)
       ∧ queueBuffer r2 k = []
       ∧ ∀ k', k' ≠ k → l_updates r2 !! k' = l_updates r !! k').
Proof.
  intros Hon. unfold queue_chainGet, queueMetasGet. rewrite Hon. split.
  - intros Hnone. apply chainGet_scan_nothing; [exact Hon|].
    intros m Hin Hready.
    apply list_elem_of_fmap in Hin as ([[c i] w] & -> & Hin).
    apply elem_of_map_to_list in Hin. simpl in *.
    exfalso. apply (Hnone (c, i) w Hin Hready).
  - intros ([c i] & w & Hw & Hready).
    match goal with
    | |- context [chainGet_scan now ?qm r] =>
        destruct (chainGet_scan_claims now qm r Hon)
          as (m & r2 & Hin & Hr & Hm & Hrun & _ & Hs & Hmeta & Hb & Hother)
    end.
    + exists {| qm_chatID := c; qm_userID := i; waitTill := w |}.
      split; [|split; [exact Hready | simpl; rewrite Hw; eauto]].
      apply list_elem_of_fmap. exists ((c, i), w).
      split; [reflexivity|]. apply elem_of_map_to_list. exact Hw.
    + apply list_elem_of_fmap in Hin as ([[c' i'] w'] & -> & Hin).
      apply elem_of_map_to_list in Hin. simpl in *.
      exists (c', i'), w', r2. repeat split; auto.
Qed.

Lemma chainGet_claims_one_ready_witness :
  queue_chainGet queue_3 5 store_ready = ((UpdateChain_zero, None), store_ready)
  ∧ ∃ k w r2,
      h_meta store_ready !! k = Some w ∧ w < 10
      ∧ queue_chainGet queue_3 10 store_ready =
          ((UpdateChain_add UpdateChain_zero (queueBuffer store_ready k), None),
           r2)
      ∧ h_sess r2 = h_sess store_ready
      ∧ h_meta r2 = delete k (h_meta store_ready)
      ∧ queueBuffer r2 k = []
      ∧ ∀ k', k' ≠ k → l_updates r2 !! k' = l_updates store_ready !! k'.
Proof.
  split.
  - apply (chainGet_claims_one_ready queue_3 5 store_ready eq_refl).
    intros k w Hk.
    destruct (decide (k = (100, 11))) as [->|Hne].
    + vm_compute in Hk. injection Hk as <-. lia.
    + unfold store_ready in Hk. simpl in Hk.
      rewrite lookup_singleton_ne in Hk by congruence. discriminate.
  - apply (chainGet_claims_one_ready queue_3 10 store_ready eq_refl).
    exists (100, 11), 5. split; [vm_compute; reflexivity | lia].
Defined.

(** X6: a claim is exclusive.  Once a scan has claimed a conversation, a
    scan by another caller that still holds entries of that conversation
    from an older reading of the meta hash passes them over, returns the
    empty chain with no error and leaves the store as the first scan left
    it. *)
Theorem claimed_queue_is_not_claimed_again (now now' : Z) (m : queueMeta)
  (qm qm' : list queueMeta) (r : redis) :
  online r = true →
  waitTill m < now →
  is_Some (h_meta r !! (qm_chatID m, qm_userID m)) →
  (∀ m', m' ∈ qm' →
         (qm_chatID m', qm_userID m') = (qm_chatID m, qm_userID m)) →
  chainGet_scan now' qm' (snd (chainGet_scan now (m :: qm) r))
  = ((UpdateChain_zero, None), snd (chainGet_scan now (m :: qm) r)).
Proof.
  intros Hon Hready Hmeta Hsame.
  destruct (chainGet_scan_won now m qm r Hon Hready Hmeta)
    as (r2 & Hrun & Hon2 & _ & Hm & _).
  rewrite Hrun. simpl.
  apply chainGet_scan_nothing; [exact Hon2|].
  intros m' Hin _. rewrite (Hsame m' Hin), Hm. apply lookup_delete_eq.
Qed.

Lemma claimed_queue_is_not_claimed_again_witness :
  chainGet_scan 11 [meta_A; meta_A] (snd (chainGet_scan 10 [meta_A] store_ready))
  = ((UpdateChain_zero, None), snd (chainGet_scan 10 [meta_A] store_ready)).
Proof.
  apply (claimed_queue_is_not_claimed_again 10 11 meta_A [] [meta_A; meta_A]
           store_ready); [reflexivity | reflexivity | vm_compute; eauto |].
  intros m' Hin.
  apply elem_of_cons in Hin as [->|Hin]; [reflexivity|].
  apply list_elem_of_singleton in Hin. subst m'. reflexivity.
Defined.

(** X7: chainGet finds queues through the meta hash only: the buffered
    updates of a conversation that has no meta stay in their list,
    whatever the clock reads, and the conversation still has no meta
    afterwards. *)
Theorem updates_without_meta_stay (q : queue) (now : Z) (r : redis)
  (k : Z * Z) :
  h_meta r !! k = None →
  queueBuffer (snd (queue_chainGet q now r)) k = queueBuffer r k
  ∧ h_meta (snd (queue_chainGet q now r)) !! k = None.
Proof.
  intros Hno. unfold queue_chainGet, queueMetasGet, queueBuffer.
  destruct (online r) eqn:Hon.
  - match goal with
    | |- context [chainGet_scan now ?qm r] =>
        destruct (chainGet_scan_frame now k qm r) as [H1 H2]
    end.
    + intros m Hin Hkey.
      apply list_elem_of_fmap in Hin as ([[c i] w] & -> & Hin).
      apply elem_of_map_to_list in Hin. simpl in Hkey. subst k.
      rewrite Hno in Hin. discriminate.
    + rewrite H1, H2, Hno. split; reflexivity.
  - simpl. rewrite Hno. split; reflexivity.
Qed.

Lemma updates_without_meta_stay_witness :
  queueBuffer (snd (queue_chainGet queue_3 1000 store_claimed)) (100, 11)
  = queueBuffer store_claimed (100, 11)
  ∧ h_meta (snd (queue_chainGet queue_3 1000 store_claimed)) !! (100, 11) = None.
Proof.
  apply (updates_without_meta_stay queue_3 1000 store_claimed (100, 11)).
  reflexivity.
Defined.

Lemma enqueue_all_state q c i : ∀ calls r,
  online r = true →
  online (enqueue_all q c i calls r) = true
  ∧ h_sess (enqueue_all q c i calls r) = h_sess r
  ∧ h_meta (enqueue_all q c i calls r)
    = match last calls with
      | None => h_meta r
      | Some call => <[(c, i) := fst call + waitInterval q]> (h_meta r)
      end
  ∧ queueBuffer (enqueue_all q c i calls r) (c, i)
    = queueBuffer r (c, i) ++ (snd <$> calls)
  ∧ ∀ k, k ≠ (c, i) →
         l_updates (enqueue_all q c i calls r) !! k = l_updates r !! k.
Proof.
  induction calls as [|[t u] calls IH] using rev_ind; intros r Hon.
  - simpl. rewrite app_nil_r. repeat split; auto.
  - destruct (IH r Hon) as (H1 & H2 & H3 & H4 & H5).
    rewrite enqueue_all_app. unfold enqueue_all at 1 3 5 7 9. simpl.
    rewrite (queue_add_online _ _ _ _ _ _ H1). simpl.
    rewrite last_snoc, fmap_app, H2, H3. simpl.
    split; [reflexivity|]. split; [reflexivity|]. split; [|split].
    + destruct (last calls); [apply insert_insert_eq | reflexivity].
    + unfold queueBuffer at 1. simpl. rewrite lookup_insert_eq. simpl.
      rewrite H4, app_assoc. reflexivity.
    + intros k Hk. rewrite lookup_insert_ne by congruence. apply H5, Hk.
Qed.

(** X8: enqueue and claim, end to end.  On a store that answers and holds
    no meta, after a run of add calls for one conversation a chainGet
    whose clock reads later than the time of the last call plus the wait
    interval returns, with no error, the chain built from everything
    buffered for the conversation in the order of the calls, and leaves
    the conversation with no meta and an empty list. *)
Theorem enqueue_then_claim (q : queue) (c i : Z) (calls : list (Z * Update))
  (t : Z) (u : Update) (now : Z) (r : redis) :
  online r = true →
  h_meta r = ∅ →
  t + waitInterval q < now →
  ∃ r2,
    queue_chainGet q now (enqueue_all q c i (calls ++ [(t, u)]) r)
    = ((UpdateChain_add UpdateChain_zero
          (queueBuffer r (c, i) ++ (snd <$> calls) ++ [u]), None), r2)
    ∧ h_meta r2 = ∅
    ∧ queueBuffer r2 (c, i) = [].
Proof.
  intros Hon Hempty Hlate.
  destruct (enqueue_all_state q c i (calls ++ [(t, u)]) r Hon)
    as (Hon1 & _ & Hm1 & Hb1 & _).
  rewrite last_snoc, Hempty, insert_empty in Hm1. simpl in Hm1.
  rewrite fmap_app in Hb1. simpl in Hb1.
  unfold queue_chainGet, queueMetasGet. rewrite Hon1, Hm1.
  rewrite map_to_list_singleton. simpl fmap.
  set (m := {| qm_chatID := c; qm_userID := i;
               waitTill := t + waitInterval q |}).
  destruct (chainGet_scan_won now m []
              (enqueue_all q c i (calls ++ [(t, u)]) r) Hon1 Hlate)
    as (r2 & Hrun & _ & _ & Hm2 & Hb2 & _).
  { simpl. rewrite Hm1, lookup_singleton_eq. eauto. }
  exists r2. subst m. cbn [qm_chatID qm_userID waitTill] in Hrun, Hm2, Hb2.
  rewrite Hrun, Hb1.
  split; [reflexivity|]. split; [|exact Hb2].
  rewrite Hm2, Hm1. apply delete_singleton_eq.
Qed.

Lemma enqueue_then_claim_witness :
  ∃ r2,
    queue_chainGet queue_3 8
      (enqueue_all queue_3 100 11
         ([(1, msg 1 100 userA "a")] ++ [(4, msg 2 100 userA "b")])
         redis_empty)
    = ((UpdateChain_add UpdateChain_zero
          (queueBuffer redis_empty (100, 11)
           ++ (snd <$> [(1, msg 1 100 userA "a")])
           ++ [msg 2 100 userA "b"]), None), r2)
    ∧ h_meta r2 = ∅
    ∧ queueBuffer r2 (100, 11) = [].
Proof.
  apply (enqueue_then_claim queue_3 100 11 [(1, msg 1 100 userA "a")] 4
           (msg 2 100 userA "b") 8 redis_empty);
    [reflexivity | reflexivity | vm_compute; reflexivity].
Defined.

(** ** The chain, further *)

Lemma chain_wf_add_elt uc u :
  chain_wf uc → chain_wf (UpdateChain_add_elt uc u).
Proof.
  intros (Hu & Hn & Hall). unfold UpdateChain_add_elt.
  destruct (decide (updateTypeEltGet u = UpdateTypeUnknown)) as [E|E];
    [repeat split; assumption|].
  destruct (decide (updateType uc = UpdateTypeNone)) as [En|En]; simpl.
  - rewrite decide_True by reflexivity. simpl.
    rewrite (Hn En). repeat split.
    + exact E.
    + intros H. exfalso. revert H. apply updateTypeEltGet_not_none.
    + constructor; [reflexivity | constructor].
  - destruct (decide (updateType uc = updateTypeEltGet u)) as [Et|Et];
      [|repeat split; assumption].
    simpl. repeat split.
    + exact Hu.
    + intros H. contradiction.
    + apply Forall_app. split; [exact Hall|].
      constructor; [symmetry; exact Et | constructor].
Qed.

(** X9: add keeps the chain well formed: if the kind of the chain is not
    [unknown], a chain of kind [none] is empty and every update is of the
    kind of the chain, then the same holds after add, for any updates.  In
    particular the chain that chainGet builds from the empty chain only
    holds messages when its kind is [message] and only callback queries
    when its kind is [callback]. *)
Theorem add_keeps_chain_wf (uc : UpdateChain) (us : list Update) :
  chain_wf uc →
  chain_wf (UpdateChain_add uc us)
  ∧ (updateType (UpdateChain_add uc us) = UpdateTypeMessage →
     ∀ u, u ∈ updates (UpdateChain_add uc us) → is_Some (Message u))
  ∧ (updateType (UpdateChain_add uc us) = UpdateTypeCallback →
     ∀ u, u ∈ updates (UpdateChain_add uc us) →
          Message u = None ∧ is_Some (CallbackQuery u)).
Proof.
  intros Hwf.
  assert (Hwf' : chain_wf (UpdateChain_add uc us)).
  { unfold UpdateChain_add. revert uc Hwf.
    induction us as [|u us IH]; intros uc Hwf; [exact Hwf|].
    simpl. apply IH, chain_wf_add_elt, Hwf. }
  split; [exact Hwf'|].
  destruct Hwf' as (_ & _ & Hall). rewrite Forall_forall in Hall.
  split; intros Hk u Hin; specialize (Hall u Hin); rewrite Hk in Hall;
    unfold updateTypeEltGet in Hall;
    destruct (Message u); try discriminate; eauto;
    destruct (CallbackQuery u); try discriminate; eauto.
Qed.

Lemma add_keeps_chain_wf_witness :
  chain_wf (UpdateChain_add UpdateChain_zero
              [unknownUpdate; callback 3 100 userA "x"; msg 1 100 userA "a"])
  ∧ (updateType (UpdateChain_add UpdateChain_zero
                   [unknownUpdate; callback 3 100 userA "x";
                    msg 1 100 userA "a"]) = UpdateTypeMessage →
     ∀ u, u ∈ updates (UpdateChain_add UpdateChain_zero
                         [unknownUpdate; callback 3 100 userA "x";
                          msg 1 100 userA "a"]) → is_Some (Message u))
  ∧ (updateType (UpdateChain_add UpdateChain_zero
                   [unknownUpdate; callback 3 100 userA "x";
                    msg 1 100 userA "a"]) = UpdateTypeCallback →
     ∀ u, u ∈ updates (UpdateChain_add UpdateChain_zero
                         [unknownUpdate; callback 3 100 userA "x";
                          msg 1 100 userA "a"]) →
          Message u = None ∧ is_Some (CallbackQuery u)).
Proof.
  apply (add_keeps_chain_wf UpdateChain_zero
           [unknownUpdate; callback 3 100 userA "x"; msg 1 100 userA "a"]).
  split; [discriminate|]. split; [reflexivity|]. constructor.
Defined.

Lemma add_zero_head us :
  head (updates (UpdateChain_add UpdateChain_zero us))
  = head (filter (λ u, updateTypeEltGet u ≠ UpdateTypeUnknown) us).
Proof.
  rewrite UpdateChain_add_zero. simpl.
  induction us as [|u us IH]; [reflexivity|].
  rewrite firstKind_cons, !filter_cons.
  destruct (decide (updateTypeEltGet u = UpdateTypeUnknown)) as [E|E].
  - rewrite decide_False.
    + rewrite decide_False by (intros H; apply H, E). exact IH.
    + rewrite E. intros H. symmetry in H. revert H.
      apply firstKind_not_unknown.
  - rewrite decide_True by reflexivity.
    rewrite decide_True by exact E. reflexivity.
Qed.

(** X10: sessionInit on the chain that add builds from a batch.  It fails
    with ErrUpdateChainZeroLen exactly when no update of the batch is a
    message or a callback query; otherwise it reads the first update of
    the batch that is a message or a callback query: it panics when
    updateIDsGet panics on that update, and when updateIDsGet and
    updateUserNameGet return, on a store that answers, the session gets
    the chat, the user and the user name they return. *)
Theorem sessionInit_of_batch (us : list Update) (r : redis) :
  (sessionInit (UpdateChain_add UpdateChain_zero us) r
     = Some (inl ErrUpdateChainZeroLen)
   ↔ Forall (λ u, updateTypeEltGet u = UpdateTypeUnknown) us)
  ∧ (∀ u, head (filter (λ u, updateTypeEltGet u ≠ UpdateTypeUnknown) us)
          = Some u →
       (updateIDsGet u = None →
          sessionInit (UpdateChain_add UpdateChain_zero us) r = None)
       ∧ (online r = true →
          ∀ c i name,
            updateIDsGet u = Some (c, i) →
            updateUserNameGet u = Some name →
            sessionInit (UpdateChain_add UpdateChain_zero us) r
            = Some (inr {| chatID := c; userID := i; userName := name;
                           updateChain :=
                             UpdateChain_add UpdateChain_zero us |}))).
Proof.
  pose proof (add_zero_head us) as Hhead.
  unfold sessionInit, redisConnect. split.
  - destruct (updates (UpdateChain_add UpdateChain_zero us)) as [|u0 rest].
    + split; [intros _|reflexivity].
      apply Forall_forall. intros u Hin.
      destruct (decide (updateTypeEltGet u = UpdateTypeUnknown)) as [E|E];
        [exact E|].
      assert (Hf : u ∈ filter (λ u, updateTypeEltGet u ≠ UpdateTypeUnknown) us)
        by (apply list_elem_of_filter; split; assumption).
      destruct (filter _ us); [|discriminate].
      apply elem_of_nil in Hf. contradiction.
    + split.
      * destruct (updateIDsGet u0); simpl; [|discriminate].
        destruct (updateUserNameGet u0); simpl; [|discriminate].
        destruct (online r); discriminate.
      * intros Hall. exfalso.
        destruct (filter (λ u, updateTypeEltGet u ≠ UpdateTypeUnknown) us)
          as [|u1 l] eqn:Ef; [discriminate|].
        assert (Hin : u1 ∈ filter (λ u, updateTypeEltGet u ≠ UpdateTypeUnknown) us)
          by (rewrite Ef; left).
        apply list_elem_of_filter in Hin as [Hne Hin].
        rewrite Forall_forall in Hall. apply Hne, Hall, Hin.
  - intros u Hu. rewrite Hu in Hhead.
    destruct (updates (UpdateChain_add UpdateChain_zero us)) as [|u0 rest];
      [discriminate|].
    injection Hhead as ->. split.
    + intros ->. reflexivity.
    + intros Hon c i name -> ->. simpl. rewrite Hon. reflexivity.
Qed.

Lemma sessionInit_of_batch_witness :
  sessionInit
    (UpdateChain_add UpdateChain_zero
       [unknownUpdate; callback_inline userA "x"]) redis_empty = None
  ∧ sessionInit
      (UpdateChain_add UpdateChain_zero
         [unknownUpdate; msg 1 100 userA "a"; msg 2 100 userA "b"]) redis_empty
    = Some (inr {| chatID := 100; userID := 11; userName := "alice";
                   updateChain :=
                     UpdateChain_add UpdateChain_zero
                       [unknownUpdate; msg 1 100 userA "a";
                        msg 2 100 userA "b"] |}).
Proof.
  split.
  - apply (proj2 (sessionInit_of_batch
                    [unknownUpdate; callback_inline userA "x"] redis_empty)
             (callback_inline userA "x")); reflexivity.
  - apply (proj2 (sessionInit_of_batch
                    [unknownUpdate; msg 1 100 userA "a"; msg 2 100 userA "b"]
                    redis_empty)
             (msg 1 100 userA "a")); reflexivity.
Defined.

(** X11: the readers of message IDs go through the pointers of the
    update.  On a well formed chain on whose updates updateIDsGet returns
    (as on every update that UpdateAbsorb let into the queue),
    MessagesIDsGet returns one ID for each update of the chain,
    MessagesIDGet is the first of them (0 for an empty chain), and
    CallbackQueryIDGet returns a value.  On a chain of callback kind whose
    first callback query carries no message, MessagesIDsGet and
    MessagesIDGet panic. *)
Theorem chain_readers_defined (uc : UpdateChain) :
  (chain_wf uc →
   (∀ u, u ∈ updates uc → is_Some (updateIDsGet u)) →
   ∃ ids,
     MessagesIDsGet uc = Some ids
     ∧ length ids = length (updates uc)
     ∧ MessagesIDGet uc = Some (default 0 (head ids))
     ∧ is_Some (CallbackQueryIDGet uc))
  ∧ (updateType uc = UpdateTypeCallback →
     ∀ u rest c,
       updates uc = u :: rest →
       CallbackQuery u = Some c →
       CQ_Message c = None →
       MessagesIDsGet uc = None ∧ MessagesIDGet uc = None).
Proof.
  split.
  - intros (Hu & Hn & Hall) Hids0.
    unfold MessagesIDsGet, MessagesIDGet, CallbackQueryIDGet.
    destruct (updateType uc) eqn:Ek.
    + rewrite (Hn eq_refl). exists []. simpl. repeat split; eauto.
    + contradiction.
    + assert (Hm : Forall (λ u, is_Some (Message u)) (updates uc)).
      { eapply Forall_impl; [exact Hall|]. intros u Hk.
        unfold updateTypeEltGet in Hk.
        destruct (Message u); [eauto|].
        destruct (CallbackQuery u); discriminate. }
      destruct (mapM_is_Some_2 (λ u, m ← Message u; Some (MessageID m))
                  (updates uc)) as [ids Hids].
      { eapply Forall_impl; [exact Hm|]. intros u [m Hu'].
        unfold compose. rewrite Hu'. simpl. eauto. }
      exists ids. rewrite Hids. split; [reflexivity|].
      apply mapM_Some_1 in Hids.
      split; [symmetry; eapply Forall2_length; exact Hids|].
      split; [|rewrite decide_True by discriminate; eauto].
      destruct (updates uc) as [|u us'];
        inversion Hids as [|? id ? ids' Hid _]; subst; [reflexivity|].
      simpl. destruct (Message u); simpl in Hid; [|discriminate].
      injection Hid as <-. reflexivity.
    + assert (Hc : Forall (λ u, ∃ c m, CallbackQuery u = Some c
                                       ∧ CQ_Message c = Some m) (updates uc)).
      { apply Forall_forall. intros u Hin.
        rewrite Forall_forall in Hall. specialize (Hall u Hin).
        specialize (Hids0 u Hin). unfold updateTypeEltGet in Hall.
        unfold updateIDsGet in Hids0.
        destruct (Message u); [discriminate|].
        destruct (CallbackQuery u) as [c|]; [|discriminate].
        destruct (CQ_Message c) as [m|] eqn:Em;
          [exists c, m; split; [reflexivity | exact Em]|].
        destruct Hids0 as [? Hx]. discriminate Hx. }
      destruct (mapM_is_Some_2
                  (λ u, c ← CallbackQuery u; m ← CQ_Message c;
                        Some (MessageID m))
                  (updates uc)) as [ids Hids].
      { eapply Forall_impl; [exact Hc|]. intros u (c & m & Hcq & Hcm).
        unfold compose. rewrite Hcq. simpl. rewrite Hcm. simpl. eauto. }
      exists ids. rewrite Hids. split; [reflexivity|].
      apply mapM_Some_1 in Hids.
      split; [symmetry; eapply Forall2_length; exact Hids|].
      rewrite decide_False by (intros H; apply H; reflexivity).
      destruct (updates uc) as [|u us'];
        inversion Hids as [|? id ? ids' Hid _]; subst.
      * split; [reflexivity | eauto].
      * inversion Hc as [|? ? (c & m & Hcq & Hcm) _]; subst. simpl.
        rewrite Hcq in Hid |- *. simpl in Hid |- *.
        rewrite Hcm in Hid |- *. simpl in Hid |- *. injection Hid as <-.
        split; [reflexivity | eauto].
  - intros Ek u rest c Eup Hcq Hcm.
    unfold MessagesIDsGet, MessagesIDGet. rewrite Ek, Eup. simpl.
    rewrite Hcq. simpl. rewrite Hcm. split; reflexivity.
Qed.

Lemma chain_readers_defined_witness :
  (∃ ids,
     MessagesIDsGet (updateChain (session_callback "x")) = Some ids
     ∧ length ids = length (updates (updateChain (session_callback "x")))
     ∧ MessagesIDGet (updateChain (session_callback "x"))
       = Some (default 0 (head ids))
     ∧ is_Some (CallbackQueryIDGet (updateChain (session_callback "x"))))
  ∧ MessagesIDsGet
      {| updateType := UpdateTypeCallback;
         updates := [callback_inline userA "x"] |} = None
  ∧ MessagesIDGet
      {| updateType := UpdateTypeCallback;
         updates := [callback_inline userA "x"] |} = None.
Proof.
  split.
  - apply (proj1 (chain_readers_defined (updateChain (session_callback "x")))).
    + split; [discriminate|]. split; [discriminate|].
      constructor; [reflexivity | constructor].
    + intros u Hin. apply list_elem_of_singleton in Hin. subst u.
      eexists. reflexivity.
  - apply (proj2 (chain_readers_defined
                    {| updateType := UpdateTypeCallback;
                       updates := [callback_inline userA "x"] |})
             eq_refl (callback_inline userA "x") []
             {| CQ_ID := "cq"; CQ_From := Some userA; CQ_Message := None;
                Data := "x" |});
      reflexivity.
Defined.

(** ** One queue, one conversation *)

Section AbsorbProperties.

Variable answerCallback : string → World → World.

(** The bot API does not write to Redis. *)
Hypothesis answer_keeps_store :
  ∀ id w, store (answerCallback id w) = store w.

(** X12: UpdateAbsorb files an update under the chat and the user it
    carries.  It panics exactly when updateIDsGet does (a callback query
    without a message, for one), before anything is written.  Otherwise it
    returns, and given that answering a callback query leaves the store
    alone: an update whose chat ID or user ID is 0 (one that is neither a
    message nor a callback query, for one) is dropped with no error and
    the store is unchanged; an update with a chat and a user, on a store
    that answers, goes to the end of the list of its own chat and user and
    the meta of that conversation is set to the clock plus the wait; and
    if every buffered update carried the chat and user of its list before,
    the same holds afterwards. *)
Theorem UpdateAbsorb_files_by_identity (wait : Z) (update : Update) (now : Z)
  (w : World) :
  (UpdateAbsorb answerCallback wait update now w = None
   ↔ updateIDsGet update = None)
  ∧ (∀ c i, updateIDsGet update = Some (c, i) →
       ∃ res w',
         UpdateAbsorb answerCallback wait update now w = Some (res, w')
         ∧ (c = 0 ∨ i = 0 → res = None ∧ store w' = store w)
         ∧ (c ≠ 0 → i ≠ 0 → online (store w) = true →
            res = None
            ∧ queueBuffer (store w') (c, i)
              = queueBuffer (store w) (c, i) ++ [update]
            ∧ h_meta (store w') !! (c, i) = Some (now + wait))
         ∧ (queue_keyed (store w) → queue_keyed (store w'))).
Proof.
  unfold UpdateAbsorb, queueInit, redisConnect, on_store.
  set (w1 := match CallbackQuery update with
             | Some cq => answerCallback (CQ_ID cq) w
             | None => w
             end).
  assert (Hw1 : store w1 = store w).
  { unfold w1. destruct (CallbackQuery update); [apply answer_keeps_store|].
    reflexivity. }
  split.
  - destruct (updateIDsGet update) as [[c i]|]; simpl; [|split; reflexivity].
    split; [|discriminate].
    case_decide; [discriminate|].
    destruct (online (store w1)); [|discriminate].
    destruct (queue_add _ c i update now (store w1)). discriminate.
  - intros c i Eid. rewrite Eid. simpl. rewrite Hw1.
    destruct (decide (c = 0 ∨ i = 0)) as [Hz|Hnz].
    + exists None, w1. split; [reflexivity|]. split; [|split].
      * intros _. split; [reflexivity | exact Hw1].
      * intros Hc Hi. destruct Hz; contradiction.
      * intros Hkeyed. rewrite Hw1. exact Hkeyed.
    + destruct (online (store w)) eqn:Hon.
      * rewrite (queue_add_online _ _ _ _ _ _ Hon). simpl.
        eexists _, _. split; [reflexivity|]. simpl. split; [|split].
        -- intros Hz. contradiction.
        -- intros _ _ _. split; [reflexivity|]. unfold queueBuffer at 1. simpl.
           rewrite !lookup_insert_eq. split; reflexivity.
        -- intros Hkeyed k us u Hk Hin. simpl in Hk.
           destruct (decide ((c, i) = k)) as [<-|Hne].
           ++ rewrite lookup_insert_eq in Hk. injection Hk as <-.
              apply elem_of_app in Hin as [Hin|Hin].
              ** unfold queueBuffer in Hin.
                 destruct (l_updates (store w) !! (c, i)) as [old|] eqn:Eold.
                 --- apply (Hkeyed (c, i) old u Eold Hin).
                 --- apply elem_of_nil in Hin. contradiction.
              ** apply list_elem_of_singleton in Hin. subst u. exact Eid.
           ++ rewrite lookup_insert_ne in Hk by exact Hne.
              apply (Hkeyed k us u Hk Hin).
      * exists (Some ErrRedis), w1. split; [reflexivity|]. split; [|split].
        -- intros Hz. contradiction.
        -- intros _ _ Hf. discriminate Hf.
        -- intros Hkeyed. rewrite Hw1. exact Hkeyed.
Qed.

End AbsorbProperties.

Lemma redis_empty_keyed : queue_keyed redis_empty.
Proof. intros k us u Hk. simpl in Hk. rewrite lookup_empty in Hk. discriminate. Qed.

Lemma store_ready_keyed : queue_keyed store_ready.
Proof.
  intros k us u Hk Hin. unfold store_ready in Hk. simpl in Hk.
  destruct (decide (k = (100, 11))) as [->|Hne].
  - rewrite lookup_singleton_eq in Hk. injection Hk as <-.
    apply elem_of_cons in Hin as [->|Hin]; [reflexivity|].
    apply list_elem_of_singleton in Hin. subst u. reflexivity.
  - rewrite lookup_singleton_ne in Hk by congruence. discriminate.
Qed.

Lemma UpdateAbsorb_files_by_identity_witness :
  UpdateAbsorb answerSample 3 (callback_inline userA "x") 1
    {| store := store_ready; wire := [] |} = None
  ∧ ∃ res w',
      UpdateAbsorb answerSample 3 (callback 7 100 userA "x") 1
        {| store := store_ready; wire := [] |} = Some (res, w')
      ∧ (100 = 0 ∨ 11 = 0 → res = None ∧ store w' = store_ready)
      ∧ (100 ≠ 0 → 11 ≠ 0 → online store_ready = true →
         res = None
         ∧ queueBuffer (store w') (100, 11)
           = queueBuffer store_ready (100, 11) ++ [callback 7 100 userA "x"]
         ∧ h_meta (store w') !! (100, 11) = Some (1 + 3))
      ∧ (queue_keyed store_ready → queue_keyed (store w')).
Proof.
  assert (Hanswer : ∀ id w, store (answerSample id w) = store w)
    by reflexivity.
  split.
  - apply (proj1 (UpdateAbsorb_files_by_identity answerSample Hanswer 3
                    (callback_inline userA "x") 1
                    {| store := store_ready; wire := [] |})).
    reflexivity.
  - apply (proj2 (UpdateAbsorb_files_by_identity answerSample Hanswer 3
                    (callback 7 100 userA "x") 1
                    {| store := store_ready; wire := [] |}) 100 11).
    reflexivity.
Defined.

(** What a scan can do on a store that answers: nothing, or one claim. *)
Lemma chainGet_scan_cases now : ∀ qm r,
  online r = true →
  chainGet_scan now qm r = ((UpdateChain_zero, None), r)
  ∨ ∃ m r2,
      m ∈ qm ∧ waitTill m < now
      ∧ is_Some (h_meta r !! (qm_chatID m, qm_userID m))
      ∧ chainGet_scan now qm r =
          ((UpdateChain_add UpdateChain_zero
              (queueBuffer r (qm_chatID m, qm_userID m)), None), r2)
      ∧ online r2 = true
      ∧ queueBuffer r2 (qm_chatID m, qm_userID m) = []
      ∧ ∀ k', k' ≠ (qm_chatID m, qm_userID m) →
              l_updates r2 !! k' = l_updates r !! k'.
Proof.
  induction qm as [|m0 qm IH]; intros r Hon; [left; reflexivity|].
  destruct (decide (waitTill m0 < now)) as [Hr0|Hn0].
  - destruct (h_meta r !! (qm_chatID m0, qm_userID m0)) as [w0|] eqn:E0.
    + right.
      destruct (chainGet_scan_won now m0 qm r Hon Hr0)
        as (r2 & Hrun & Hon2 & _ & _ & Hb & Hother); [rewrite E0; eauto|].
      exists m0, r2. rewrite E0. repeat split; eauto. left.
    + rewrite (chainGet_scan_lost now m0 qm r Hon Hr0 E0).
      destruct (IH r Hon) as [H|(m & r2 & Hin & Hrest)]; [left; exact H|].
      right. exists m, r2. split; [right; exact Hin | exact Hrest].
  - rewrite (chainGet_scan_not_ready now m0 qm r Hn0).
    destruct (IH r Hon) as [H|(m & r2 & Hin & Hrest)]; [left; exact H|].
    right. exists m, r2. split; [right; exact Hin | exact Hrest].
Qed.

(** X13: the chain that chainGet returns belongs to one conversation.  On
    a store that answers and in which every buffered update carries the
    chat and user of its list, if chainGet returns a chain from which
    sessionInit makes a session, then every update of the chain carries
    the chat and user of that session, the meta of that conversation was
    older than the clock, and every buffered update still carries the chat
    and user of its list. *)
Theorem claimed_chain_has_one_identity (q : queue) (now : Z) (r r2 : redis)
  (uc : UpdateChain) (sess : Session) :
  online r = true →
  queue_keyed r →
  queue_chainGet q now r = ((uc, None), r2) →
  sessionInit uc r2 = Some (inr sess) →
  (∃ w, h_meta r !! (chatID sess, userID sess) = Some w ∧ w < now)
  ∧ (∀ u, u ∈ updates uc → updateIDsGet u = Some (chatID sess, userID sess))
  ∧ queue_keyed r2.
Proof.
  intros Hon Hkeyed Hget Hinit.
  unfold queue_chainGet, queueMetasGet in Hget. rewrite Hon in Hget.
  match type of Hget with
  | chainGet_scan now ?qm r = _ =>
      destruct (chainGet_scan_cases now qm r Hon)
        as [Hnone|(m & r2' & Hin & Hready & Hmeta & Hrun & Hon2 & Hb & Hother)]
  end.
  - rewrite Hnone in Hget. injection Hget as <- <-. discriminate Hinit.
  - rewrite Hrun in Hget. injection Hget as <- <-.
    apply list_elem_of_fmap in Hin as ([[c i] w] & -> & Hin).
    apply elem_of_map_to_list in Hin. simpl in *.
    assert (Hids : ∀ u,
      u ∈ updates (UpdateChain_add UpdateChain_zero (queueBuffer r (c, i))) →
      updateIDsGet u = Some (c, i)).
    { intros u Hu. rewrite UpdateChain_add_zero in Hu. simpl in Hu.
      apply list_elem_of_filter in Hu as [_ Hu]. unfold queueBuffer in Hu.
      destruct (l_updates r !! (c, i)) as [us|] eqn:Eus.
      - apply (Hkeyed (c, i) us u Eus Hu).
      - apply elem_of_nil in Hu. contradiction. }
    unfold sessionInit, redisConnect in Hinit. rewrite Hon2 in Hinit.
    destruct (updates (UpdateChain_add UpdateChain_zero (queueBuffer r (c, i))))
      as [|u0 rest] eqn:Eup; [discriminate|].
    rewrite (Hids u0) in Hinit by left. simpl in Hinit.
    destruct (updateUserNameGet u0) as [name|]; [|discriminate].
    simpl in Hinit. injection Hinit as <-. simpl.
    split; [exists w; split; assumption|]. split; [exact Hids|].
    intros k us u Hk Hu.
    destruct (decide (k = (c, i))) as [->|Hne].
    + unfold queueBuffer in Hb. rewrite Hk in Hb. simpl in Hb. subst us.
      apply elem_of_nil in Hu. contradiction.
    + rewrite (Hother k Hne) in Hk. apply (Hkeyed k us u Hk Hu).
Qed.

Lemma claimed_chain_has_one_identity_witness :
  (∃ w, h_meta store_ready !! (chatID session_A, userID session_A) = Some w
        ∧ w < 10)
  ∧ (∀ u,
       u ∈ updates
             {| updateType := UpdateTypeMessage;
                updates := [msg 1 100 userA "a"; msg 2 100 userA "b"] |} →
       updateIDsGet u = Some (chatID session_A, userID session_A))
  ∧ queue_keyed redis_empty.
Proof.
  apply (claimed_chain_has_one_identity queue_3 10 store_ready redis_empty
           {| updateType := UpdateTypeMessage;
              updates := [msg 1 100 userA "a"; msg 2 100 userA "b"] |}
           {| chatID := 100; userID := 11; userName := "alice";
              updateChain :=
                {| updateType := UpdateTypeMessage;
                   updates := [msg 1 100 userA "a"; msg 2 100 userA "b"] |} |});
    [reflexivity | exact store_ready_keyed | vm_compute; reflexivity
    | vm_compute; reflexivity].
Defined.

(** ** Callback data and commands *)

Lemma length_zero_empty (d : string) : String.length d = 0%nat ↔ d = "".
Proof. destruct d; simpl; split; intros H; try reflexivity; discriminate. Qed.

Section CallbackProperties.

Variable jsonMarshal : callbackData → string.
Variable jsonUnmarshal : string → option callbackData.

(** X14: the data of a button comes back as the state and the identifier
    it was made from.  If the first update of a chain of callback kind
    carries the JSON text of [callbackDataGen st identifier], the text is
    not empty and json.Unmarshal reads it back, then
    callbackSessionStateGet returns [st] and [identifier] with no error. *)
Theorem callback_data_round_trip (st : SessionState) (identifier : string)
  (uc : UpdateChain) (u : Update) (rest : list Update) (c : tgCallbackQuery) :
  updateType uc = UpdateTypeCallback →
  updates uc = u :: rest →
  CallbackQuery u = Some c →
  Data c = jsonMarshal (callbackDataGen st identifier) →
  Data c ≠ "" →
  jsonUnmarshal (jsonMarshal (callbackDataGen st identifier))
    = Some (callbackDataGen st identifier) →
  callbackSessionStateGet jsonUnmarshal uc = Some (st, identifier, None).
Proof.
  intros Hk Hup Hcq Hdata Hne Hjson.
  unfold callbackSessionStateGet, callbackDataGet.
  rewrite Hk, Hup, Hcq.
  rewrite (decide_False (P := UpdateTypeCallback ≠ UpdateTypeCallback))
    by (intros H; apply H; reflexivity).
  simpl. rewrite decide_False by (rewrite length_zero_empty; exact Hne).
  rewrite Hdata, Hjson. destruct st. reflexivity.
Qed.

(** X15: callbacks that lead nowhere.  For a chain of callback kind: with
    empty callback data stateCallbackProcessing reads the message ID of
    the callback query (a panic when the query carries no message) and
    then returns [nil] and changes nothing; with data that json.Unmarshal
    rejects it returns the decoding error and changes nothing; and with
    data that names a declared state that has no CallbackHandler it
    returns [nil] and changes nothing. *)
Theorem callback_without_target (fuel : nat) (t : Telegram) (s : Session)
  (w : World) (u : Update) (rest : list Update) (c : tgCallbackQuery) :
  updateType (updateChain s) = UpdateTypeCallback →
  updates (updateChain s) = u :: rest →
  CallbackQuery u = Some c →
  (Data c = "" →
     stateCallbackProcessing jsonUnmarshal (S fuel) t s w
     = (_ ← CQ_Message c; Some (None, w)))
  ∧ (Data c ≠ "" → jsonUnmarshal (Data c) = None →
     stateCallbackProcessing jsonUnmarshal fuel t s w = Some (Some ErrJSON, w))
  ∧ (∀ cd st,
       Data c ≠ "" → jsonUnmarshal (Data c) = Some cd →
       {| state := cb_S cd |} ≠ sessionBreak →
       {| state := cb_S cd |} ≠ sessionDestroy →
       States (description t) !! {| state := cb_S cd |} = Some st →
       CallbackHandler st = None →
       stateCallbackProcessing jsonUnmarshal fuel t s w = Some (None, w)).
Proof.
  intros Hk Hup Hcq.
  unfold stateCallbackProcessing, callbackSessionStateGet, callbackDataGet.
  rewrite Hk, Hup, Hcq.
  rewrite (decide_False (P := UpdateTypeCallback ≠ UpdateTypeCallback))
    by (intros H; apply H; reflexivity).
  simpl. split; [|split].
  - intros ->. rewrite decide_True by reflexivity.
    rewrite decide_True by (left; reflexivity).
    unfold MessagesIDGet. rewrite Hk, Hup, Hcq. simpl.
    destruct (CQ_Message c); reflexivity.
  - intros Hne Hbad.
    rewrite decide_False by (rewrite length_zero_empty; exact Hne).
    rewrite Hbad. reflexivity.
  - intros cd st Hne Hok Hb Hd Hst Hno.
    rewrite decide_False by (rewrite length_zero_empty; exact Hne).
    rewrite Hok.
    rewrite decide_False by (intros [?|?]; contradiction).
    rewrite Hst, Hno. reflexivity.
Qed.

End CallbackProperties.

(** A stand-in for json.Marshal that matches [jsonSample]. *)
Lemma callback_data_round_trip_witness :
  callbackSessionStateGet jsonSample (updateChain (session_callback "user:s1"))
  = Some (SessState "s1", "", None).
Proof.
  apply (callback_data_round_trip (λ d, cb_S d) jsonSample (SessState "s1") ""
           (updateChain (session_callback "user:s1"))
           (callback 77 100 userA "user:s1") []
           {| CQ_ID := "cq"; CQ_From := Some userA;
              CQ_Message := Some {| MessageID := 77; From := Some userA;
                                    Chat := Some {| Chat_ID := 100 |};
                                    Text := EmptyString |};
              Data := "user:s1" |});
    sample_fact.
Defined.

Lemma callback_without_target_witness :
  stateCallbackProcessing jsonSample 1 telegram_sample (session_callback "")
    world_session = Some (None, world_session)
  ∧ stateCallbackProcessing jsonSample 0 telegram_sample (session_callback "?")
      world_session = Some (Some ErrJSON, world_session)
  ∧ stateCallbackProcessing jsonSample 0 telegram_sample
      (session_callback "user:ask") world_session = Some (None, world_session).
Proof.
  split; [|split].
  - refine (proj1 (callback_without_target jsonSample 0 telegram_sample
                     (session_callback "") world_session
                     (callback 77 100 userA "") []
                     {| CQ_ID := "cq"; CQ_From := Some userA;
                        CQ_Message :=
                          Some {| MessageID := 77; From := Some userA;
                                  Chat := Some {| Chat_ID := 100 |};
                                  Text := EmptyString |};
                        Data := "" |} _ _ _) _);
      sample_fact.
  - refine (proj1 (proj2 (callback_without_target jsonSample 0 telegram_sample
                     (session_callback "?") world_session
                     (callback 77 100 userA "?") [] _ _ _ _)) _ _);
      sample_fact.
  - refine (proj2 (proj2 (callback_without_target jsonSample 0 telegram_sample
                     (session_callback "user:ask") world_session
                     (callback 77 100 userA "user:ask") [] _ _ _ _))
              {| cb_S := "user:ask"; cb_I := "" |} state_ask _ _ _ _ _ _);
      sample_fact.
Defined.

(** X16: commandLookup returns the first command of the list with the
    given name: it returns [c] exactly when the list splits into commands
    with other names, then [c] with that name, then any rest; and it
    returns nothing exactly when no command of the list has the name. *)
Theorem commandLookup_first (commands : list Command) (cmd : string) :
  (∀ c, commandLookup commands cmd = Some c
        ↔ ∃ before after,
            commands = before ++ c :: after
            ∧ Cmd_Command c = cmd
            ∧ Forall (λ c', Cmd_Command c' ≠ cmd) before)
  ∧ (commandLookup commands cmd = None
     ↔ Forall (λ c', Cmd_Command c' ≠ cmd) commands).
Proof.
  induction commands as [|c0 commands [IHs IHn]]; simpl.
  - split.
    + intros c. split; [discriminate|].
      intros (before & after & H & _). destruct before; discriminate.
    + split; [constructor | reflexivity].
  - destruct (decide (Cmd_Command c0 = cmd)) as [E|E]; split.
    + intros c. split.
      * intros H. injection H as <-. exists [], commands.
        split; [reflexivity|]. split; [exact E | constructor].
      * intros (before & after & H & _ & Hall).
        destruct before as [|b before].
        -- injection H as -> _. reflexivity.
        -- injection H as -> _. inversion Hall; subst. contradiction.
    + split; [discriminate|]. intros H. inversion H; subst. contradiction.
    + intros c. rewrite IHs. split.
      * intros (before & after & -> & Hc & Hall).
        exists (c0 :: before), after.
        split; [reflexivity|]. split; [exact Hc|].
        constructor; assumption.
      * intros (before & after & H & Hc & Hall).
        destruct before as [|b before].
        -- injection H as -> _. contradiction.
        -- injection H as -> ->. inversion Hall; subst.
           exists before, after. repeat split; assumption.
    + rewrite IHn. split.
      * intros H. constructor; assumption.
      * intros H. inversion H; subst. assumption.
Qed.

(** ** Routing *)

Lemma world_eta w : {| store := store w; wire := wire w |} = w.
Proof. destruct w; reflexivity. Qed.

Lemma on_store_StateGet s w :
  online (store w) = true →
  on_store (StateGet s) w =
    (match h_sess (store w) !! (chatID s, userID s) with
     | None => (sessionBreak, false, None)
     | Some d => ({| state := data_State d |}, true, None)
     end, w).
Proof.
  intros Hon. unfold on_store, StateGet.
  rewrite (sessGet_online _ _ _ Hon).
  destruct (h_sess (store w) !! (chatID s, userID s));
    rewrite world_eta; reflexivity.
Qed.

Section RoutingProperties.

Variable jsonUnmarshal : string → option callbackData.
Variable Message_Command : tgMessage → string.
Variable Message_CommandArguments : tgMessage → string.
Variable commands : list Command.

(** X17: a declared command goes before the state of the session.  When
    the first update of a chain of message kind is a command that the
    description declares, stateProcessing does not look at the session:
    with no handler for the command it returns [nil] and changes nothing,
    and with a handler that returns a state it is stateSwitch to that
    state with message ID 0 in the world the handler left. *)
Theorem command_goes_first (fuel : nat) (t : Telegram) (s : Session)
  (w : World) (u : Update) (rest : list Update) (m : tgMessage) (c : Command) :
  updateType (updateChain s) = UpdateTypeMessage →
  updates (updateChain s) = u :: rest →
  Message u = Some m →
  Message_Command m ≠ "" →
  commandLookup commands (Message_Command m) = Some c →
  (Cmd_Handler c = None →
     stateProcessing jsonUnmarshal Message_Command Message_CommandArguments
       commands fuel t s w = Some (None, w))
  ∧ (∀ handler ns w1,
       Cmd_Handler c = Some handler →
       handler s (Message_Command m) (Message_CommandArguments m) w
       = (inr ns, w1) →
       stateProcessing jsonUnmarshal Message_Command Message_CommandArguments
         commands fuel t s w = stateSwitch fuel t s ns 0 w1).
Proof.
  intros Hk Hup Hm Hcmd Hlook.
  unfold stateProcessing, stateCommandProcessing, commandCheck.
  rewrite Hk, Hup, Hm.
  rewrite (decide_False (P := UpdateTypeMessage ≠ UpdateTypeMessage))
    by (intros H; apply H; reflexivity).
  simpl. rewrite decide_False by (rewrite length_zero_empty; exact Hcmd).
  rewrite Hlook. split.
  - intros ->. reflexivity.
  - intros handler ns w1 -> ->.
    destruct (stateSwitch fuel t s ns 0 w1) as [[err w2]|]; reflexivity.
Qed.

(** X18: without a declared command the kind of the chain routes.  A
    chain of callback kind is never read as a command: stateProcessing is
    stateCallbackProcessing.  A chain of message kind whose first message
    is no command, or a command the description does not declare, goes to
    stateMessageProcessing. *)
Theorem routing_by_kind (fuel : nat) (t : Telegram) (s : Session) (w : World) :
  (updateType (updateChain s) = UpdateTypeCallback →
     stateProcessing jsonUnmarshal Message_Command Message_CommandArguments
       commands fuel t s w
     = stateCallbackProcessing jsonUnmarshal fuel t s w)
  ∧ (updateType (updateChain s) = UpdateTypeMessage →
     ∀ cmd args,
       commandCheck Message_Command Message_CommandArguments (updateChain s)
       = Some (cmd, args) →
       cmd = "" ∨ commandLookup commands cmd = None →
       stateProcessing jsonUnmarshal Message_Command Message_CommandArguments
         commands fuel t s w
       = stateMessageProcessing fuel t s w).
Proof.
  unfold stateProcessing, stateCommandProcessing, TypeGet. split.
  - intros Hk. unfold commandCheck. rewrite Hk.
    rewrite decide_True by discriminate. simpl. reflexivity.
  - intros Hk cmd args -> Hno. simpl. rewrite Hk.
    destruct (decide (String.length cmd = 0%nat)) as [E|E]; [reflexivity|].
    destruct Hno as [-> | ->]; [|reflexivity].
    exfalso. apply E. reflexivity.
Qed.

End RoutingProperties.

(** X19: what stateMessageProcessing does with a message, on a store that
    answers.  With no session and no InitHandler it returns [nil] and
    changes nothing.  With a session whose stored state the description
    does not declare it returns ErrDescriptionStateMissing and changes
    nothing.  With a session in a declared state that has no
    MessageHandler it returns [nil] and changes nothing.  With a
    MessageHandler that returns a state it is stateSwitch to that state
    with message ID 0. *)
Theorem message_routing (fuel : nat) (t : Telegram) (s : Session) (w : World) :
  online (store w) = true →
  (h_sess (store w) !! (chatID s, userID s) = None →
     InitHandler (description t) = None →
     stateMessageProcessing fuel t s w = Some (None, w))
  ∧ (∀ d, h_sess (store w) !! (chatID s, userID s) = Some d →
       States (description t) !! {| state := data_State d |} = None →
       stateMessageProcessing fuel t s w
       = Some (Some ErrDescriptionStateMissing, w))
  ∧ (∀ d st, h_sess (store w) !! (chatID s, userID s) = Some d →
       States (description t) !! {| state := data_State d |} = Some st →
       MessageHandler st = None →
       stateMessageProcessing fuel t s w = Some (None, w))
  ∧ (∀ d st handler ns w1,
       h_sess (store w) !! (chatID s, userID s) = Some d →
       States (description t) !! {| state := data_State d |} = Some st →
       MessageHandler st = Some handler →
       handler s w = (inr ns, w1) →
       stateMessageProcessing fuel t s w = stateSwitch fuel t s ns 0 w1).
Proof.
  intros Hon. unfold stateMessageProcessing.
  rewrite (on_store_StateGet s w Hon).
  split; [|split; [|split]].
  - intros -> Hinit. simpl. unfold stateInitProcessing. rewrite Hinit.
    reflexivity.
  - intros d -> Hno. simpl. rewrite Hno. reflexivity.
  - intros d st -> Hst Hmh. simpl. rewrite Hst, Hmh. reflexivity.
  - intros d st handler ns w1 -> Hst Hmh Hrun. simpl.
    rewrite Hst, Hmh, Hrun. reflexivity.
Qed.

Lemma command_goes_first_witness :
  stateProcessing jsonSample commandSample argumentsSample commands_sample 3
    telegram_sample (session_text "/help") world_session
  = Some (None, world_session)
  ∧ stateProcessing jsonSample commandSample argumentsSample commands_sample 3
      telegram_sample (session_text "/start") world_session
    = stateSwitch 3 telegram_sample (session_text "/start") (SessState "ask") 0
        world_session.
Proof.
  split.
  - refine (proj1 (command_goes_first jsonSample commandSample argumentsSample
                     commands_sample 3 telegram_sample (session_text "/help")
                     world_session (msg 1 100 userA "/help") []
                     {| MessageID := 1; From := Some userA;
                        Chat := Some {| Chat_ID := 100 |}; Text := "/help" |}
                     {| Cmd_Command := "help"; Cmd_Description := "help";
                        Cmd_Handler := None |} _ _ _ _ _) _);
      sample_fact.
  - refine (proj2 (command_goes_first jsonSample commandSample argumentsSample
                     commands_sample 3 telegram_sample (session_text "/start")
                     world_session (msg 1 100 userA "/start") []
                     {| MessageID := 1; From := Some userA;
                        Chat := Some {| Chat_ID := 100 |};
                        Text := "/start" |}
                     {| Cmd_Command := "start";
                        Cmd_Description := "start the bot";
                        Cmd_Handler :=
                          Some (λ _ _ _ w, (inr (SessState "ask"), w)) |}
                     _ _ _ _ _)
              (λ _ _ _ w, (inr (SessState "ask"), w)) (SessState "ask")
              world_session _ _);
      sample_fact.
Defined.

Lemma routing_by_kind_witness :
  stateProcessing jsonSample commandSample argumentsSample commands_sample 3
    telegram_sample (session_callback "user:ask") world_session
  = stateCallbackProcessing jsonSample 3 telegram_sample
      (session_callback "user:ask") world_session
  ∧ stateProcessing jsonSample commandSample argumentsSample commands_sample 3
      telegram_sample (session_text "hello") world_session
    = stateMessageProcessing 3 telegram_sample (session_text "hello")
        world_session.
Proof.
  split.
  - apply (proj1 (routing_by_kind jsonSample commandSample argumentsSample
                    commands_sample 3 telegram_sample
                    (session_callback "user:ask") world_session)).
    reflexivity.
  - apply (proj2 (routing_by_kind jsonSample commandSample argumentsSample
                    commands_sample 3 telegram_sample (session_text "hello")
                    world_session) eq_refl "" "");
      [reflexivity | left; reflexivity].
Defined.

Lemma message_routing_witness :
  stateMessageProcessing 3 telegram_sample (session_text "hello")
    {| store := redis_empty; wire := [] |}
  = Some (None, {| store := redis_empty; wire := [] |})
  ∧ stateMessageProcessing 3 telegram_sample (session_text "hello")
      world_session
    = Some (Some ErrDescriptionStateMissing, world_session)
  ∧ stateMessageProcessing 3 telegram_sample (session_text "hello")
      (world_in (session_text "hello") (SessState "one") world_session)
    = Some (None,
            world_in (session_text "hello") (SessState "one") world_session)
  ∧ stateMessageProcessing 3 telegram_sample (session_text "hello")
      (world_in (session_text "hello") (SessState "ask") world_session)
    = stateSwitch 3 telegram_sample (session_text "hello") (SessState "one") 0
        (world_in (session_text "hello") (SessState "ask") world_session).
Proof.
  split; [|split; [|split]].
  - apply (message_routing 3 telegram_sample (session_text "hello")
             {| store := redis_empty; wire := [] |}); reflexivity.
  - refine (proj1 (proj2 (message_routing 3 telegram_sample
                            (session_text "hello") world_session _))
              {| data_State := "user:menu";
                 data_Slots := {[ "lang" := list_byte_of_string "en" ]} |}
              _ _); sample_fact.
  - refine (proj1 (proj2 (proj2 (message_routing 3 telegram_sample
              (session_text "hello")
              (world_in (session_text "hello") (SessState "one") world_session)
              _)))
              {| data_State := "user:one";
                 data_Slots := {[ "lang" := list_byte_of_string "en" ]} |}
              (state_auto "one" (SessState "two") false) _ _ _); sample_fact.
  - refine (proj2 (proj2 (proj2 (message_routing 3 telegram_sample
              (session_text "hello")
              (world_in (session_text "hello") (SessState "ask") world_session)
              _)))
              {| data_State := "user:ask";
                 data_Slots := {[ "lang" := list_byte_of_string "en" ]} |}
              state_ask onMessage_ask (SessState "one")
              (world_in (session_text "hello") (SessState "ask") world_session)
              _ _ _ _); sample_fact.
Defined.

(** ** The state switch, further *)

Lemma on_store_stateSet s ns w :
  online (store w) = true →
  on_store (stateSet s ns) w =
    (None,
     {| store :=
          {| online := true;
             h_sess :=
               <[(chatID s, userID s) :=
                   {| data_State := state ns;
                      data_Slots :=
                        match h_sess (store w) !! (chatID s, userID s) with
                        | None => ∅
                        | Some d => data_Slots d
                        end |}]> (h_sess (store w));
             h_meta := h_meta (store w);
             l_updates := l_updates (store w) |};
        wire := wire w |}).
Proof.
  intros Hon. unfold on_store, stateSet.
  rewrite (sessGet_online _ _ _ Hon).
  destruct (h_sess (store w) !! (chatID s, userID s)) as [d|];
    simpl; unfold sessSave; rewrite Hon; reflexivity.
Qed.

(** X20: a state that names itself never lets stateSwitch return.  If a
    declared state has no MessageHandler and its state handler, leaving
    the world alone, returns an empty message and the state itself as
    NextState, then on a store that answers stateSwitch to that state does
    not return within any bound on the depth of its recursion. *)
Theorem stateSwitch_self_loop (fuel : nat) (t : Telegram) (s : Session)
  (ns : SessionState) (mid : Z) (w : World) (st : State)
  (handler : Session → World → (error + StateHandlerRes) * World)
  (hr : StateHandlerRes) :
  ns ≠ sessionBreak →
  ns ≠ sessionDestroy →
  States (description t) !! ns = Some st →
  MessageHandler st = None →
  StateHandler st = Some handler →
  (∀ w', handler s w' = (inr hr, w')) →
  SHR_Message hr = "" →
  NextState hr = ns →
  online (store w) = true →
  stateSwitch fuel t s ns mid w = None.
Proof.
  intros Hb Hd Hst Hmh Hh Hpure Hmsg Hnext.
  revert mid w. induction fuel as [|fuel IH]; intros mid w Hon;
    [reflexivity|].
  rewrite stateSwitch_other by assumption.
  unfold stateSwitch_enter.
  rewrite Hst, (on_store_stateSet s ns w Hon), Hh, Hpure.
  unfold deliver. rewrite Hmsg. simpl.
  rewrite Hmh, Hnext. apply IH. reflexivity.
Qed.

Lemma stateSwitch_self_loop_witness :
  stateSwitch 50 telegram_loop session_A (SessState "loop") 0 world_session
  = None.
Proof.
  apply (stateSwitch_self_loop 50 telegram_loop session_A (SessState "loop") 0
           world_session state_loop (handler_of "" (SessState "loop") false)
           (result_of "" (SessState "loop") false));
    sample_fact.
Defined.

Lemma stateSwitch_enter_mono
  (again1 again2 : SessionState → Z → World → option (option error * World))
  t s ns mid w res :
  (∀ ns' mid' w' res',
     again1 ns' mid' w' = Some res' → again2 ns' mid' w' = Some res') →
  stateSwitch_enter again1 t s ns mid w = Some res →
  stateSwitch_enter again2 t s ns mid w = Some res.
Proof.
  intros Hmono. unfold stateSwitch_enter.
  repeat match goal with
         | |- context [match ?x with _ => _ end] => destruct x
         end;
    try (intros Hres; exact Hres); apply Hmono.
Qed.

(** The bound on the recursion only cuts runs short.  If stateSwitch
    returns within some bound on the depth of its recursion, it returns
    the same error and the same world within every larger bound. *)
Theorem stateSwitch_fuel_mono (fuel extra : nat) (t : Telegram) (s : Session)
  (ns : SessionState) (mid : Z) (w : World) (res : option error * World) :
  stateSwitch fuel t s ns mid w = Some res →
  stateSwitch (fuel + extra) t s ns mid w = Some res.
Proof.
  revert ns mid w res.
  induction fuel as [|fuel IH]; intros ns mid w res; [discriminate|].
  simpl. repeat case_decide; try (intros Hres; exact Hres).
  apply stateSwitch_enter_mono. exact IH.
Qed.

Lemma stateSwitch_fuel_mono_witness :
  stateSwitch (3 + 40) telegram_sample (session_callback "user:s1")
    (SessState "s1") 77 world_session
  = Some (None, world_s2_sent).
Proof.
  apply (stateSwitch_fuel_mono 3 40 telegram_sample
           (session_callback "user:s1") (SessState "s1") 77 world_session
           (None, world_s2_sent)).
  vm_compute. reflexivity.
Defined.

(** X21: stateSwitch stores the new state before the state handler runs.
    For a declared state on a store that answers, the handler runs in a
    world where StateGet of the session returns the new state; so with no
    state handler stateSwitch returns [nil] with the session in the new
    state, and when the handler fails and there is no ErrorHandler
    stateSwitch returns the error of the handler in the world the handler
    left, the new state already stored. *)
Theorem stateSwitch_stores_state_first (fuel : nat) (t : Telegram)
  (s : Session) (ns : SessionState) (mid : Z) (w : World) (st : State) :
  ns ≠ sessionBreak →
  ns ≠ sessionDestroy →
  States (description t) !! ns = Some st →
  online (store w) = true →
  ∃ w1,
    on_store (stateSet s ns) w = (None, w1)
    ∧ fst (StateGet s (store w1)) = (ns, true, None)
    ∧ wire w1 = wire w
    ∧ (StateHandler st = None →
       stateSwitch (S fuel) t s ns mid w = Some (None, w1))
    ∧ (∀ handler err w2,
         StateHandler st = Some handler →
         handler s w1 = (inl err, w2) →
         ErrorHandler (description t) = None →
         stateSwitch (S fuel) t s ns mid w = Some (Some err, w2)).
Proof.
  intros Hb Hd Hst Hon.
  eexists. split; [apply (on_store_stateSet s ns w Hon)|].
  split; [|split; [reflexivity|split]].
  - unfold StateGet. rewrite sessGet_online by reflexivity. simpl.
    rewrite lookup_insert_eq. simpl. destruct ns. reflexivity.
  - intros Hh. rewrite stateSwitch_other by assumption.
    unfold stateSwitch_enter.
    rewrite Hst, (on_store_stateSet s ns w Hon), Hh. reflexivity.
  - intros handler err w2 Hh Hrun Hno.
    rewrite stateSwitch_other by assumption.
    unfold stateSwitch_enter.
    rewrite Hst, (on_store_stateSet s ns w Hon), Hh, Hrun, Hno. reflexivity.
Qed.

Lemma stateSwitch_stores_state_first_witness :
  ∃ w1,
    on_store (stateSet session_A (SessState "wait")) world_session = (None, w1)
    ∧ fst (StateGet session_A (store w1)) = (SessState "wait", true, None)
    ∧ wire w1 = wire world_session
    ∧ (StateHandler state_wait = None →
       stateSwitch 1 telegram_sample session_A (SessState "wait") 0
         world_session = Some (None, w1))
    ∧ (∀ handler err w2,
         StateHandler state_wait = Some handler →
         handler session_A w1 = (inl err, w2) →
         ErrorHandler (description telegram_sample) = None →
         stateSwitch 1 telegram_sample session_A (SessState "wait") 0
           world_session = Some (Some err, w2)).
Proof.
  apply (stateSwitch_stores_state_first 0 telegram_sample session_A
           (SessState "wait") 0 world_session state_wait); sample_fact.
Defined.

(** ** Processing *)

Section ProcessingProperties.

Variable jsonUnmarshal : string → option callbackData.
Variable Message_Command : tgMessage → string.
Variable Message_CommandArguments : tgMessage → string.
Variable commands : list Command.

(** X23: Processing with nothing to do.  On a store that answers in which
    no meta is older than the clock, Processing returns [nil] (the
    ErrUpdateChainZeroLen of sessionInit is not passed on), calls no
    handler and leaves the store and the bot API untouched. *)
Theorem Processing_nothing_ready (wait : Z) (fuel : nat) (t : Telegram)
  (now : Z) (w : World) :
  online (store w) = true →
  (∀ k tw, h_meta (store w) !! k = Some tw → ¬ tw < now) →
  Processing jsonUnmarshal Message_Command Message_CommandArguments commands
    wait fuel t now w = Some (None, w).
Proof.
  intros Hon Hnone.
  unfold Processing, queueInit, redisConnect, on_store, queue_chainGet,
    queueMetasGet.
  rewrite Hon.
  rewrite chainGet_scan_nothing.
  - simpl. rewrite world_eta. reflexivity.
  - exact Hon.
  - intros m Hin Hready.
    apply list_elem_of_fmap in Hin as ([[c i] tw] & -> & Hin).
    apply elem_of_map_to_list in Hin. simpl in *.
    exfalso. apply (Hnone (c, i) tw Hin Hready).
Qed.

End ProcessingProperties.

Lemma Processing_nothing_ready_witness :
  Processing jsonSample commandSample argumentsSample commands_sample 3 5
    telegram_sample 5 {| store := store_ready; wire := [] |}
  = Some (None, {| store := store_ready; wire := [] |}).
Proof.
  apply (Processing_nothing_ready jsonSample commandSample argumentsSample
           commands_sample 3 5 telegram_sample 5
           {| store := store_ready; wire := [] |}); [reflexivity|].
  intros k tw Hk. simpl in Hk. unfold store_ready in Hk. simpl in Hk.
  destruct (decide (k = (100, 11))) as [->|Hne].
  - rewrite lookup_singleton_eq in Hk. injection Hk as <-. lia.
  - rewrite lookup_singleton_ne in Hk by congruence. discriminate.
Defined.

Example Processing_start_command :
  ∃ w0,
  UpdateAbsorb answerSample 3 (msg 1 100 userA "/start") 1
    {| store := redis_empty; wire := [] |} = Some (None, w0)
  ∧ Processing jsonSample commandSample argumentsSample commands_sample 3 5
    telegram_sample 4 w0 = Some (None, w0)
  ∧ Processing jsonSample commandSample argumentsSample commands_sample 3 5
      telegram_sample 5 w0
    = Some (None,
            {| store :=
                 {| online := true;
                    h_sess := {[ (100, 11) := {| data_State := "user:ask";
                                                 data_Slots := ∅ |} ]};
                    h_meta := ∅; l_updates := ∅ |};
               wire := [NewMessage 100 "name?" []] |}).
Proof.
  eexists. split; [reflexivity|]. vm_compute. split; reflexivity.
Qed.

(** ** Slots and state, further *)

Section SlotFrame.

Variable V : Type.
Variable gobEncode : V → option (list Byte.byte).
Variable gobDecode : list Byte.byte → option V.

(** X24: SlotSave and SlotDel change one slot only.  With a session in
    place, on a store that answers, after SlotSave of a value that gob
    encodes, or after SlotDel, StateGet returns what it returned before
    and SlotGet of any other slot returns what it returned before. *)
Theorem slot_ops_change_one_slot (s : Session) (slot : string) (v : V)
  (buf : list Byte.byte) (d : data) (r : redis) :
  online r = true →
  h_sess r !! (chatID s, userID s) = Some d →
  gobEncode v = Some buf →
  fst (StateGet s (snd (SlotSave V gobEncode s slot v r))) = fst (StateGet s r)
  ∧ fst (StateGet s (snd (SlotDel s slot r))) = fst (StateGet s r)
  ∧ ∀ other, other ≠ slot →
      fst (SlotGet V gobDecode s other (snd (SlotSave V gobEncode s slot v r)))
      = fst (SlotGet V gobDecode s other r)
      ∧ fst (SlotGet V gobDecode s other (snd (SlotDel s slot r)))
        = fst (SlotGet V gobDecode s other r).
Proof.
  intros Hon Hd Henc. unfold StateGet, SlotSave, SlotGet, SlotDel.
  rewrite (sessGet_online _ _ _ Hon), Hd. simpl.
  rewrite Henc. unfold sessSave. rewrite Hon. simpl.
  rewrite !sessGet_online by reflexivity. simpl.
  rewrite !lookup_insert_eq. simpl.
  split; [reflexivity|]. split; [reflexivity|].
  intros other Hne.
  rewrite lookup_insert_ne by congruence.
  rewrite lookup_delete_ne by congruence.
  destruct (data_Slots d !! other) as [ds|]; [destruct (gobDecode ds)|];
    split; reflexivity.
Qed.

End SlotFrame.

Lemma slot_ops_change_one_slot_witness :
  fst (StateGet session_A
         (snd (SlotSave string gobString session_A "city" "Oslo" store_session)))
  = fst (StateGet session_A store_session)
  ∧ fst (StateGet session_A (snd (SlotDel session_A "city" store_session)))
    = fst (StateGet session_A store_session)
  ∧ ∀ other, other ≠ "city" →
      fst (SlotGet string ungobString session_A other
             (snd (SlotSave string gobString session_A "city" "Oslo"
                     store_session)))
      = fst (SlotGet string ungobString session_A other store_session)
      ∧ fst (SlotGet string ungobString session_A other
               (snd (SlotDel session_A "city" store_session)))
        = fst (SlotGet string ungobString session_A other store_session).
Proof.
  apply (slot_ops_change_one_slot string gobString ungobString session_A
           "city" "Oslo" (list_byte_of_string "Oslo")
           {| data_State := "user:menu";
              data_Slots := {[ "lang" := list_byte_of_string "en" ]} |}
           store_session); sample_fact.
Defined.

(** X25: StateGet reads what stateSet wrote.  On a store that answers,
    StateGet after stateSet returns the state that was set, with [true]
    and no error, whether or not there was a session before; and for a
    conversation with no session StateGet returns the break state with
    [false] and no error. *)
Theorem stateSet_StateGet (s : Session) (st : SessionState) (r : redis) :
  online r = true →
  fst (StateGet s (snd (stateSet s st r))) = (st, true, None)
  ∧ (h_sess r !! (chatID s, userID s) = None →
     StateGet s r = ((sessionBreak, false, None), r)).
Proof.
  intros Hon. unfold StateGet, stateSet.
  rewrite (sessGet_online _ _ _ Hon). split.
  - destruct (h_sess r !! (chatID s, userID s)); simpl;
      unfold sessSave; rewrite Hon; simpl;
      rewrite sessGet_online by reflexivity; simpl;
      rewrite lookup_insert_eq; destruct st; reflexivity.
  - intros ->. reflexivity.
Qed.

Lemma stateSet_StateGet_witness :
  fst (StateGet session_A (snd (stateSet session_A (SessState "ask") redis_empty)))
  = (SessState "ask", true, None)
  ∧ StateGet session_A redis_empty = ((sessionBreak, false, None), redis_empty).
Proof.
  destruct (stateSet_StateGet session_A (SessState "ask") redis_empty eq_refl)
    as [H1 H2].
  split; [exact H1 | apply H2; reflexivity].
Defined.

Section DestroyProperties.

Variable V : Type.
Variable gobDecode : list Byte.byte → option V.

(** X26: a destroyed session starts over.  On a store that answers, after
    destroy the conversation has no session (StateGet reports [false]) and
    no queue; and a stateSet after destroy starts a session with no slots:
    SlotGet of any slot then returns [false] with no error, whatever the
    slots held before. *)
Theorem destroy_starts_over (s : Session) (st : SessionState) (w : World)
  (slot : string) :
  online (store w) = true →
  fst (destroy s w) = None
  ∧ fst (StateGet s (store (snd (destroy s w)))) = (sessionBreak, false, None)
  ∧ h_meta (store (snd (destroy s w))) !! (chatID s, userID s) = None
  ∧ queueBuffer (store (snd (destroy s w))) (chatID s, userID s) = []
  ∧ wire (snd (destroy s w)) = wire w
  ∧ fst (SlotGet V gobDecode s slot
           (snd (stateSet s st (store (snd (destroy s w))))))
    = (None, false, None).
Proof.
  intros Hon. rewrite (destroy_online s w Hon). simpl.
  split; [reflexivity|]. split; [|split; [|split; [|split]]].
  - unfold StateGet. rewrite sessGet_online by reflexivity. simpl.
    rewrite lookup_delete_eq. reflexivity.
  - apply lookup_delete_eq.
  - unfold queueBuffer. simpl. rewrite lookup_delete_eq. reflexivity.
  - reflexivity.
  - match goal with
    | |- context [stateSet s st ?r1] =>
        assert (Hset : snd (stateSet s st r1) =
                  {| online := true;
                     h_sess := <[(chatID s, userID s) :=
                                   {| data_State := state st;
                                      data_Slots := ∅ |}]> (h_sess r1);
                     h_meta := h_meta r1;
                     l_updates := l_updates r1 |})
    end.
    { unfold stateSet. rewrite sessGet_online by reflexivity. simpl.
      rewrite lookup_delete_eq. reflexivity. }
    rewrite Hset. unfold SlotGet.
    rewrite sessGet_online by reflexivity. simpl.
    rewrite lookup_insert_eq. simpl. rewrite lookup_empty. reflexivity.
Qed.

End DestroyProperties.

Lemma destroy_starts_over_witness :
  fst (destroy session_A world_session) = None
  ∧ fst (StateGet session_A (store (snd (destroy session_A world_session))))
    = (sessionBreak, false, None)
  ∧ h_meta (store (snd (destroy session_A world_session)))
      !! (chatID session_A, userID session_A) = None
  ∧ queueBuffer (store (snd (destroy session_A world_session)))
      (chatID session_A, userID session_A) = []
  ∧ wire (snd (destroy session_A world_session)) = wire world_session
  ∧ fst (SlotGet string ungobString session_A "lang"
           (snd (stateSet session_A (SessState "menu")
                   (store (snd (destroy session_A world_session))))))
    = (None, false, None).
Proof.
  apply (destroy_starts_over string ungobString session_A (SessState "menu")
           world_session "lang").
  reflexivity.
Defined.

(** X22: an ErrorHandler moves the session on, whatever the state waits
    for.  When the state handler of a declared state fails and the
    description has an ErrorHandler, stateSwitch is stateSwitch to the state
    the ErrorHandler returns, with message ID 0, in the world the
    ErrorHandler left, even when the failed state declares a
    MessageHandler; and when the ErrorHandler fails too, its error is
    returned. *)
Theorem stateSwitch_error_handler (fuel : nat) (t : Telegram) (s : Session)
  (ns : SessionState) (mid : Z) (w w1 w2 w3 : World) (st : State)
  (handler : Session → World → (error + StateHandlerRes) * World)
  (onError : Session → error → World → (error + SessionState) * World)
  (err : error) (res : error + SessionState) :
  ns ≠ sessionBreak →
  ns ≠ sessionDestroy →
  States (description t) !! ns = Some st →
  on_store (stateSet s ns) w = (None, w1) →
  StateHandler st = Some handler →
  handler s w1 = (inl err, w2) →
  ErrorHandler (description t) = Some onError →
  onError s err w2 = (res, w3) →
  stateSwitch (S fuel) t s ns mid w =
    match res with
    | inl err' => Some (Some err', w3)
    | inr next => stateSwitch fuel t s next 0 w3
    end.
Proof.
  intros Hb Hd Hst Hset Hh Hrun Heh Hres.
  rewrite stateSwitch_other by assumption.
  unfold stateSwitch_enter.
  rewrite Hst, Hset, Hh, Hrun, Heh, Hres.
  destruct res; reflexivity.
Qed.

Lemma stateSwitch_error_handler_witness :
  stateSwitch 3 telegram_recover session_A (SessState "broken") 0 world_session
  = stateSwitch 2 telegram_recover session_A (SessState "two") 0
      (world_in session_A (SessState "broken") world_session).
Proof.
  apply (stateSwitch_error_handler 2 telegram_recover session_A
           (SessState "broken") 0 world_session
           (world_in session_A (SessState "broken") world_session)
           (world_in session_A (SessState "broken") world_session)
           (world_in session_A (SessState "broken") world_session)
           state_broken (λ _ w, (inl (ErrUser "no data"), w)) onError_sample
           (ErrUser "no data") (inr (SessState "two")));
    sample_fact.
Defined.

Example broken_state_recovers :
  option_map (λ x, (fst x, wire (snd x),
                    fst (StateGet session_A (store (snd x)))))
    (stateSwitch 3 telegram_recover session_A (SessState "broken") 0
       world_session)
  = Some (None, [NewMessage 100 "two" []], (SessState "two", true, None)).
Proof. vm_compute. reflexivity. Qed.
